(** * Financing engine and NLU extractors of the vehicle shopping assistant

    A shallow embedding of

    - the deterministic financing engine ([calculatePurchase],
      [calculateLease], [calculateSubscription], [calculateAllScenarios]) and
    - the rule based NLU helpers ([detectIntent], [extractPriceRange],
      [parsePrice]) in their TypeScript and plain JavaScript generations,

    together with the properties the specification states about them.

    Numbers.  The source computes on JavaScript numbers, the binary64 floats
    of IEEE 754.  Two models of the financing engine are kept.

    - [Financing] computes on exact rationals ([Q]), with [termMonths] a
      whole number of months ([Z]): the comparisons, the validation guards
      and the control flow are those of the source, the arithmetic is exact.
      It carries the properties that no rounding can change: which guard a
      raw input meets, and amounts that lie far from any boundary.
    - [Double] computes on the binary64 floats of the kernel: every
      operation rounds as the source does, a comparison with NaN is false,
      a decimal literal is the nearest float.  It carries the properties
      about the reported amounts and about the checks made on computed
      amounts.  [Math.pow], which ECMAScript leaves to the implementation,
      is a parameter there.

    [Math.round] rounds to the nearest integer, ties towards plus infinity.

    Text.  A string is a [string] of bytes, read as the UTF-8 encoding of the
    JavaScript string.  [toLowerCase], the white space and the word
    characters are those of ASCII; on a text of ASCII characters they are
    those of JavaScript, and a number read from a text is exact up to
    2^53. *)

From Stdlib Require Import ZArith QArith Qround Qabs Lqa Lia.
From Stdlib Require Import Bool List String Ascii.
From Stdlib Require Import PrimFloat FloatOps SpecFloat FloatAxioms.
From Stdlib Require Uint63.

Set Warnings "-inexact-float".

Import ListNotations.

Local Open Scope Q_scope.

(** ** Results of a call that may throw *)

Inductive result (A : Type) : Type :=
| Ok (a : A)
| Throw (msg : string).

Arguments Ok {A} a.
Arguments Throw {A} msg.

Definition threw {A} (r : result A) : Prop :=
  match r with
  | Throw _ => True
  | Ok _ => False
  end.

Definition returned {A} (r : result A) : Prop :=
  match r with
  | Ok _ => True
  | Throw _ => False
  end.

Definition is_some {A} (o : option A) : bool :=
  match o with
  | Some _ => true
  | None => false
  end.

(** ** Number helpers *)

Definition Qltb (x y : Q) : bool := negb (Qle_bool y x).

Notation "x <=? y" := (Qle_bool x y) : Q_scope.
Notation "x <? y" := (Qltb x y) : Q_scope.
Notation "x >=? y" := (Qle_bool y x) (only parsing) : Q_scope.
Notation "x =? y" := (Qeq_bool x y) : Q_scope.

(** The helpers of the exact model.  [x || y] at an optional number [x]:
    [y] when [x] is falsy, that is absent or zero. *)
Definition js_or (x : option Q) (y : Q) : Q :=
  match x with
  | Some v => if v =? 0 then y else v
  | None => y
  end.

(** [Math.round]: nearest integer, a tie goes up. *)
Definition Math_round (x : Q) : Q := inject_Z (Qfloor (x + (1 # 2))).

(** [Math.pow] at a whole exponent, exact. *)
Definition Math_pow (x : Q) (n : Z) : Q := x ^ n.

(** ** Financing engine (services/financing.ts), in exact arithmetic *)

Module Financing.

(** shared/types.ts, [FinancingParams].  [residualValue] is the one optional
    field. *)
Record FinancingParams : Type := {
  price : Q;
  downPayment : Q;
  apr : Q;
  termMonths : Z;
  isLease : bool;
  isSubscription : bool;
  residualValue : option Q;
  tradeInValue : Q;
  taxRate : Q
}.

Inductive ScenarioType : Type := purchase | lease | subscription.

(** shared/types.ts, the [breakdown] object of a [PaymentCalculation]:
    [taxes] is always there, the other entries are optional. *)
Record Breakdown : Type := {
  principal : option Q;
  interest : option Q;
  taxes : Q;
  tradeIn : option Q;
  depreciation : option Q;
  finance : option Q;
  vehicle : option Q;
  insurance : option Q;
  maintenance : option Q
}.

(** shared/types.ts, [PaymentCalculation].  The field [residualValue] of the
    source is [leaseResidualValue] here, since [residualValue] names the input
    field. *)
Record PaymentCalculation : Type := {
  monthlyPayment : Q;
  totalCost : Q;
  totalInterest : option Q;
  leaseResidualValue : option Q;
  breakdown : Breakdown;
  type : ScenarioType
}.

(** [calculatePurchase]: amortizing loan,
    M = P * r(1+r)^n / ((1+r)^n - 1). *)
Definition calculatePurchase (params : FinancingParams)
  : result PaymentCalculation :=
  let price := price params in
  let downPayment := downPayment params in
  let apr := apr params in
  let termMonths := termMonths params in
  let tradeInValue := tradeInValue params in
  let taxRate := taxRate params in
  if price <=? 0 then Throw "Price must be positive"
  else if (termMonths <=? 0)%Z then Throw "Term must be positive"
  else if downPayment <? 0 then Throw "Down payment cannot be negative"
  else if tradeInValue <? 0 then Throw "Trade-in value cannot be negative"
  else if (taxRate <? 0) || (1 <? taxRate)
       then Throw "Tax rate must be between 0 and 1"
  else
    let tax := price * taxRate in
    let adjustedPrice := price + tax in
    let netPrice := adjustedPrice - tradeInValue - downPayment in
    if netPrice <=? 0 then
      Ok {| monthlyPayment := 0;
            totalCost := downPayment + tradeInValue;
            totalInterest := Some 0;
            leaseResidualValue := None;
            breakdown := {| principal := Some 0;
                            interest := Some 0;
                            taxes := tax;
                            tradeIn := Some tradeInValue;
                            depreciation := None;
                            finance := None;
                            vehicle := None;
                            insurance := None;
                            maintenance := None |};
            type := purchase |}
    else
      let monthlyRate := apr / 100 / 12 in
      let monthlyPayment :=
        if (monthlyRate =? 0) || (apr =? 0) then
          netPrice / inject_Z termMonths
        else
          let numerator :=
            netPrice * monthlyRate * Math_pow (1 + monthlyRate) termMonths in
          let denominator := Math_pow (1 + monthlyRate) termMonths - 1 in
          numerator / denominator in
      let totalCost :=
        monthlyPayment * inject_Z termMonths + downPayment + tradeInValue in
      let totalInterest := totalCost - adjustedPrice in
      Ok {| monthlyPayment := Math_round monthlyPayment;
            totalCost := Math_round totalCost;
            totalInterest := Some (Math_round totalInterest);
            leaseResidualValue := None;
            breakdown := {| principal := Some (Math_round netPrice);
                            interest := Some (Math_round totalInterest);
                            taxes := Math_round tax;
                            tradeIn := Some tradeInValue;
                            depreciation := None;
                            finance := None;
                            vehicle := None;
                            insurance := None;
                            maintenance := None |};
            type := purchase |}.

(** [calculateLease]: depreciation plus finance charge. *)
Definition calculateLease (params : FinancingParams)
  : result PaymentCalculation :=
  let price := price params in
  let downPayment := downPayment params in
  let apr := apr params in
  let termMonths := termMonths params in
  let residualValue := residualValue params in
  let tradeInValue := tradeInValue params in
  let taxRate := taxRate params in
  if price <=? 0 then Throw "Price must be positive"
  else if (termMonths <=? 0)%Z then Throw "Term must be positive"
  else if downPayment <? 0 then Throw "Down payment cannot be negative"
  else
    let tax := price * taxRate in
    let adjustedPrice := price + tax in
    let netPrice := adjustedPrice - tradeInValue - downPayment in
    let residual := js_or residualValue (Math_round (price * 0.55)) in
    if residual >=? netPrice then
      Throw "Residual value cannot exceed net price"
    else
      let depreciation := netPrice - residual in
      let monthlyDepreciation := depreciation / inject_Z termMonths in
      let moneyFactor := apr / 2400 in
      let monthlyFinance := (netPrice + residual) * moneyFactor in
      let monthlyPayment := monthlyDepreciation + monthlyFinance in
      let totalCost :=
        monthlyPayment * inject_Z termMonths + downPayment + tradeInValue in
      Ok {| monthlyPayment := Math_round monthlyPayment;
            totalCost := Math_round totalCost;
            totalInterest := None;
            leaseResidualValue := Some residual;
            breakdown := {| principal := None;
                            interest := None;
                            taxes := Math_round tax;
                            tradeIn := Some tradeInValue;
                            depreciation := Some (Math_round monthlyDepreciation);
                            finance := Some (Math_round monthlyFinance);
                            vehicle := None;
                            insurance := None;
                            maintenance := None |};
            type := lease |}.

(** [calculateSubscription]: vehicle portion plus insurance plus
    maintenance. *)
Definition calculateSubscription (params : FinancingParams)
  : result PaymentCalculation :=
  let price := price params in
  let downPayment := downPayment params in
  let termMonths := termMonths params in
  let tradeInValue := tradeInValue params in
  let taxRate := taxRate params in
  if price <=? 0 then Throw "Price must be positive"
  else if (termMonths <=? 0)%Z then Throw "Term must be positive"
  else
    let tax := price * taxRate in
    let adjustedPrice := price + tax in
    let netPrice := adjustedPrice - tradeInValue - downPayment in
    let vehiclePortion := (netPrice * 0.6) / inject_Z termMonths in
    let insurance := 150 in
    let maintenance := 100 in
    let monthlyPayment := vehiclePortion + insurance + maintenance in
    let totalCost :=
      monthlyPayment * inject_Z termMonths + downPayment + tradeInValue in
    Ok {| monthlyPayment := Math_round monthlyPayment;
          totalCost := Math_round totalCost;
          totalInterest := None;
          leaseResidualValue := None;
          breakdown := {| principal := None;
                          interest := None;
                          taxes := Math_round tax;
                          tradeIn := Some tradeInValue;
                          depreciation := None;
                          finance := None;
                          vehicle := Some (Math_round vehiclePortion);
                          insurance := Some insurance;
                          maintenance := Some maintenance |};
          type := subscription |}.

(** The object [calculateAllScenarios] returns. *)
Record Scenarios : Type := {
  buy : PaymentCalculation;
  leaseScenario : PaymentCalculation;
  subscriptionScenario : PaymentCalculation
}.

(** [calculateAllScenarios]: the three calculators in the order of the object
    literal; the first one that throws ends the call. *)
Definition calculateAllScenarios (params : FinancingParams)
  : result Scenarios :=
  match calculatePurchase params with
  | Throw msg => Throw msg
  | Ok b =>
    match calculateLease params with
    | Throw msg => Throw msg
    | Ok l =>
      match calculateSubscription params with
      | Throw msg => Throw msg
      | Ok s =>
        Ok {| buy := b; leaseScenario := l; subscriptionScenario := s |}
      end
    end
  end.

(** *** Vocabulary of the specification *)

(** The domain constraints of Financing Parameters. *)
Definition valid (p : FinancingParams) : Prop :=
  0 < price p /\ (0 < termMonths p)%Z /\ 0 <= downPayment p /\
  0 <= tradeInValue p /\ 0 <= taxRate p /\ taxRate p <= 1 /\
  0 <= apr p /\ apr p <= 100.

(** An input that breaks one of the constraints the calculators are to
    reject. *)
Definition rejected (p : FinancingParams) : Prop :=
  price p <= 0 \/ (termMonths p <= 0)%Z \/ downPayment p < 0 \/
  tradeInValue p < 0 \/ taxRate p < 0 \/ 1 < taxRate p.

(** adjustedPrice = price + price * taxRate. *)
Definition adjustedPrice (p : FinancingParams) : Q :=
  price p + price p * taxRate p.

(** net financed amount = adjustedPrice - tradeInValue - downPayment. *)
Definition netFinanced (p : FinancingParams) : Q :=
  adjustedPrice p - tradeInValue p - downPayment p.

(** The fixture of the unit tests (tests/unit/financing.test.ts,
    [baseParams]). *)
Definition baseParams : FinancingParams :=
  {| price := 30000; downPayment := 2000; apr := 5.5; termMonths := 60;
     isLease := false; isSubscription := false; residualValue := None;
     tradeInValue := 0; taxRate := 0.08 |}.

End Financing.

(** ** Text helpers *)

Local Open Scope string_scope.

(** [toLowerCase] of one byte: the ASCII capitals move down, every other
    byte stays. *)
Definition lower (c : ascii) : ascii :=
  let n := N_of_ascii c in
  if ((65 <=? n) && (n <=? 90))%N then ascii_of_N (n + 32) else c.

(** [String.prototype.toLowerCase] on the ASCII letters; every other byte is
    kept.  On a text of ASCII characters this is the result of JavaScript. *)
Fixpoint toLowerCase (s : string) : string :=
  match s with
  | EmptyString => EmptyString
  | String c s' => String (lower c) (toLowerCase s')
  end.

(** [String.prototype.includes]: [w] occurs in [s]. *)
Fixpoint includes (s w : string) : bool :=
  if String.prefix w s then true
  else match s with
       | EmptyString => false
       | String _ s' => includes s' w
       end.

(** ** Regular expressions

    A backtracking matcher for the fragment of JavaScript regular expressions
    the NLU helpers use: literals, character classes, concatenation,
    alternation (left alternative first), the greedy quantifiers [?], [*] and
    [{lo,hi}], capturing groups (numbered as in the source, by their opening
    parenthesis; [(?:...)] is plain grouping) and the [i] flag. *)

Module Regex.

Inductive regex : Type :=
| Lit (w : string)
| Class (f : ascii -> bool)
| Seq (r1 r2 : regex)
| Alt (r1 r2 : regex)
| Opt (r : regex)
| Star (r : regex)
| Range (lo hi : nat) (r : regex)
| Group (i : nat) (r : regex).

Definition captures : Type := list (nat * string).

Definition cont : Type := string -> captures -> option captures.

(** Two characters agree; under the [i] flag up to ASCII letter case. *)
Definition char_eq (ignoreCase : bool) (a b : ascii) : bool :=
  if ignoreCase then Ascii.eqb (lower a) (lower b) else Ascii.eqb a b.

(** The rest of [s] behind the literal [w], when [s] starts with [w]. *)
Fixpoint strip_prefix (ignoreCase : bool) (w s : string) : option string :=
  match w with
  | EmptyString => Some s
  | String a w' =>
    match s with
    | EmptyString => None
    | String b s' =>
      if char_eq ignoreCase a b then strip_prefix ignoreCase w' s' else None
    end
  end.

(** What a group consumed: [s] up to where [rest] begins. *)
Definition taken (s rest : string) : string :=
  substring 0 (String.length s - String.length rest) s.

(** [run ic r s caps k]: match [r] at the head of [s], then hand the rest of
    the input to the continuation [k]; when [k] refuses, fall back to the next
    choice.  An iteration of [Star] that consumes nothing is refused, as in
    the language. *)
Fixpoint run (ignoreCase : bool) (r : regex) (s : string) (caps : captures)
  (k : cont) {struct r} : option captures :=
  match r with
  | Lit w =>
    match strip_prefix ignoreCase w s with
    | Some s' => k s' caps
    | None => None
    end
  | Class f =>
    match s with
    | String c s' => if f c then k s' caps else None
    | EmptyString => None
    end
  | Seq r1 r2 =>
    run ignoreCase r1 s caps (fun s' caps' => run ignoreCase r2 s' caps' k)
  | Alt r1 r2 =>
    match run ignoreCase r1 s caps k with
    | Some res => Some res
    | None => run ignoreCase r2 s caps k
    end
  | Opt r1 =>
    match run ignoreCase r1 s caps k with
    | Some res => Some res
    | None => k s caps
    end
  | Star r1 =>
    (fix loop (fuel : nat) (s : string) (caps : captures) {struct fuel}
       : option captures :=
       match fuel with
       | O => k s caps
       | S fuel' =>
         match
           run ignoreCase r1 s caps
             (fun s' caps' =>
                if (String.length s' <? String.length s)%nat
                then loop fuel' s' caps' else None)
         with
         | Some res => Some res
         | None => k s caps
         end
       end) (String.length s) s caps
  | Range lo hi r1 =>
    (fix rep (lo hi : nat) (s : string) (caps : captures) {struct hi}
       : option captures :=
       match hi with
       | O => if (lo =? 0)%nat then k s caps else None
       | S hi' =>
         match
           run ignoreCase r1 s caps
             (fun s' caps' => rep (Nat.pred lo) hi' s' caps')
         with
         | Some res => Some res
         | None => if (lo =? 0)%nat then k s caps else None
         end
       end) lo hi s caps
  | Group i r1 =>
    run ignoreCase r1 s caps
      (fun s' caps' => k s' ((i, taken s s') :: caps'))
  end.

Definition accept : cont := fun _ caps => Some caps.

(** [r] matches at the head of [s]. *)
Definition matches_at (ignoreCase : bool) (r : regex) (s : string) : bool :=
  match run ignoreCase r s [] accept with
  | Some _ => true
  | None => false
  end.

(** [String.prototype.match] without the [g] flag: the leftmost match, with
    its groups; [None] is [null]. *)
Fixpoint exec (ignoreCase : bool) (r : regex) (s : string)
  : option captures :=
  match run ignoreCase r s [] accept with
  | Some caps => Some caps
  | None =>
    match s with
    | EmptyString => None
    | String _ s' => exec ignoreCase r s'
    end
  end.

(** [RegExp.prototype.test]. *)
Definition test (ignoreCase : bool) (r : regex) (s : string) : bool :=
  match exec ignoreCase r s with
  | Some _ => true
  | None => false
  end.

(** [m[i]] of a match [m]; the groups read here always take part in the
    match. *)
Fixpoint group (i : nat) (caps : captures) : string :=
  match caps with
  | [] => EmptyString
  | (j, w) :: caps' => if (i =? j)%nat then w else group i caps'
  end.

(** [w1|w2|...|wn] for literals. *)
Fixpoint lits (ws : list string) : regex :=
  match ws with
  | [] => Class (fun _ => false)
  | [w] => Lit w
  | w :: ws' => Alt (Lit w) (lits ws')
  end.

(** [\d] *)
Definition digit : regex :=
  Class (fun c => (48 <=? N_of_ascii c)%N && (N_of_ascii c <=? 57)%N).

(** [\s], on the ASCII white space: tab, line feed, vertical tab, form feed,
    carriage return, space. *)
Definition space : regex :=
  Class (fun c => let n := N_of_ascii c in
                  ((9 <=? n) && (n <=? 13) || (n =? 32))%N).

End Regex.

(** ** NLU helpers (services/nlu.ts and server/utils/nlu.js) *)

Module Nlu.

Import Regex.

Declare Scope regex_scope.
Delimit Scope regex_scope with re.
Notation "a +++ b" := (Seq a b) (at level 60, right associativity)
  : regex_scope.
Local Open Scope regex_scope.

(** The value of [parseInt]: an integer, or NaN. *)
Inductive number : Type :=
| NaN
| Num (n : Z).

Definition times (x : number) (k : Z) : number :=
  match x with
  | NaN => NaN
  | Num n => Num (n * k)
  end.

Inductive Intent : Type := search | compare | filter | finance.

(** The object the price extractor returns; an absent (or [null]) bound is
    [None]. *)
Record PriceRange : Type := {
  min : option number;
  max : option number
}.

Definition set_min (range : PriceRange) (v : number) : PriceRange :=
  {| min := Some v; max := max range |}.

Definition set_max (range : PriceRange) (v : number) : PriceRange :=
  {| min := min range; max := Some v |}.

Definition is_digit (c : ascii) : bool :=
  ((48 <=? N_of_ascii c) && (N_of_ascii c <=? 57))%N.

Definition is_space (c : ascii) : bool :=
  let n := N_of_ascii c in ((9 <=? n) && (n <=? 13) || (n =? 32))%N.

Fixpoint skip_space (s : string) : string :=
  match s with
  | String c s' => if is_space c then skip_space s' else s
  | EmptyString => s
  end.

(** The value of the leading decimal digits of [s], behind the digits [acc]
    already read. *)
Fixpoint digits_value (s : string) (acc : Z) : Z :=
  match s with
  | String c s' =>
    if is_digit c
    then digits_value s' (10 * acc + (Z.of_N (N_of_ascii c) - 48))%Z
    else acc
  | EmptyString => acc
  end.

(** [parseInt(s, 10)]: leading white space, an optional sign, then the
    longest run of decimal digits; NaN when there is no digit.  The value is
    a whole number ([Z]): it is the number of the code up to 2^53. *)
Definition parseInt (s : string) : number :=
  let s := skip_space s in
  let '(sign, s) :=
    match s with
    | String "-"%char s' => ((-1)%Z, s')
    | String "+"%char s' => (1%Z, s')
    | _ => (1%Z, s)
    end in
  match s with
  | String c _ => if is_digit c then Num (sign * digits_value s 0)%Z else NaN
  | EmptyString => NaN
  end.

(** [priceStr.replace(/[,k]/gi, '')] *)
Fixpoint remove_commas_k (s : string) : string :=
  match s with
  | EmptyString => EmptyString
  | String c s' =>
    if (Ascii.eqb c "," || Ascii.eqb (lower c) "k")%char
    then remove_commas_k s'
    else String c (remove_commas_k s')
  end.

(** [parsePrice], the same function in both generations. *)
Definition parsePrice (priceStr : string) : number :=
  let clean := remove_commas_k priceStr in
  let num := parseInt clean in
  if includes (toLowerCase priceStr) "k" then times num 1000 else num.

(** [\d{1,3}(?:,\d{3})*(?:k|thousand)?] *)
Definition priceRe : regex :=
  Range 1 3 digit +++ Star (Lit "," +++ Range 3 3 digit)
  +++ Opt (Alt (Lit "k") (Lit "thousand")).

(** [/under\s*\$?(\d{1,3}(?:,\d{3})*(?:k|thousand)?)/i] *)
Definition underRe : regex :=
  Lit "under" +++ Star space +++ Opt (Lit "$") +++ Group 1 priceRe.

(** [/(?:over|above|more than)\s*\$?(\d{1,3}(?:,\d{3})*(?:k|thousand)?)/i] *)
Definition overRe : regex :=
  Alt (Lit "over") (Alt (Lit "above") (Lit "more than"))
  +++ Star space +++ Opt (Lit "$") +++ Group 1 priceRe.

(** The UTF-8 bytes of the en dash and of the em dash. *)
Definition en_dash : string :=
  String (ascii_of_N 226) (String (ascii_of_N 128)
    (String (ascii_of_N 147) EmptyString)).

Definition em_dash : string :=
  String (ascii_of_N 226) (String (ascii_of_N 128)
    (String (ascii_of_N 148) EmptyString)).

(** The class of the hyphen, the en dash and the em dash. *)
Definition dash : regex := Alt (Lit "-") (Alt (Lit en_dash) (Lit em_dash)).

(** [/\$?(\d{1,3}(?:,\d{3})*(?:k|thousand)?)\s*[-–—]\s*\$?(\d{1,3}(?:,\d{3})*(?:k|thousand)?)/i] *)
Definition rangeRe : regex :=
  Opt (Lit "$") +++ Group 1 priceRe +++ Star space +++ dash +++ Star space
  +++ Opt (Lit "$") +++ Group 2 priceRe.

(** The numeric patterns, the same statements in both generations: "under",
    then "over", then the range. *)
Definition numericPatterns (lowerText : string) (range : PriceRange)
  : PriceRange :=
  let range :=
    match exec true underRe lowerText with
    | Some underMatch =>
      let value := parsePrice (group 1 underMatch) in
      set_max range value
    | None => range
    end in
  let range :=
    match exec true overRe lowerText with
    | Some overMatch =>
      let value := parsePrice (group 1 overMatch) in
      set_min range value
    | None => range
    end in
  match exec true rangeRe lowerText with
  | Some rangeMatch =>
    {| min := Some (parsePrice (group 1 rangeMatch));
       max := Some (parsePrice (group 2 rangeMatch)) |}
  | None => range
  end.

(** *** services/nlu.ts *)

Module Ts.

Definition extractPriceRange (text : string) : PriceRange :=
  let lowerText := toLowerCase text in
  let range := {| min := None; max := None |} in
  let range :=
    if includes lowerText "affordable" || includes lowerText "budget"
       || includes lowerText "cheap"
    then set_max range (Num 30000) else range in
  let range :=
    if includes lowerText "luxury" || includes lowerText "premium"
       || includes lowerText "high-end"
    then set_min range (Num 50000) else range in
  numericPatterns lowerText range.

(** [/vs|versus|compared? to|compare/i] *)
Definition compareRe : regex :=
  Alt (Lit "vs") (Alt (Lit "versus")
    (Alt (Lit "compare" +++ Opt (Lit "d") +++ Lit " to") (Lit "compare"))).

(** [/finance|payment|lease|buy|purchase|monthly|afford|price|cost/i] *)
Definition financeRe : regex :=
  lits ["finance"; "payment"; "lease"; "buy"; "purchase"; "monthly";
        "afford"; "price"; "cost"].

(** [/filter|only|just|with|has|need|must/i] *)
Definition filterRe : regex :=
  lits ["filter"; "only"; "just"; "with"; "has"; "need"; "must"].

Definition detectIntent (text : string) : Intent :=
  let lowerText := toLowerCase text in
  if test true compareRe lowerText then compare
  else if test true financeRe lowerText then finance
  else if test true filterRe lowerText then filter
  else search.

End Ts.

(** *** server/utils/nlu.js *)

Module Js.

(** [PRICE_KEYWORDS], in the order of the object literal: keyword, [min],
    [max]. *)
Definition PRICE_KEYWORDS : list (string * (option Z * option Z)) :=
  [ ("affordable", (None, Some 30000%Z));
    ("budget", (None, Some 25000%Z));
    ("cheap", (None, Some 25000%Z));
    ("economical", (None, Some 30000%Z));
    ("luxury", (Some 50000%Z, None));
    ("premium", (Some 40000%Z, None));
    ("expensive", (Some 40000%Z, None));
    ("high-end", (Some 50000%Z, None)) ].

(** The loop over [Object.entries(PRICE_KEYWORDS)]. *)
Fixpoint priceKeywords (entries : list (string * (option Z * option Z)))
  (lowerText : string) (range : PriceRange) : PriceRange :=
  match entries with
  | [] => range
  | (keyword, (bmin, bmax)) :: entries' =>
    let range :=
      if includes lowerText keyword then
        let range :=
          match bmin with
          | Some v => set_min range (Num v)
          | None => range
          end in
        match bmax with
        | Some v => set_max range (Num v)
        | None => range
        end
      else range in
    priceKeywords entries' lowerText range
  end.

Definition extractPriceRange (text : string) : PriceRange :=
  let lowerText := toLowerCase text in
  let range := {| min := None; max := None |} in
  let range := priceKeywords PRICE_KEYWORDS lowerText range in
  numericPatterns lowerText range.

(** [INTENT_PATTERNS], in the order of the object literal. *)
Definition INTENT_PATTERNS : list (Intent * regex) :=
  [ (search,
     Group 1 (lits ["show"; "find"; "search"; "look for"; "display"; "list";
                    "get"; "see"; "want"; "need"; "looking for"]));
    (compare,
     Group 1 (lits ["compare"; "vs"; "versus"; "compared to"; "comparison";
                    "difference"; "different"; "versus"; "against"]));
    (filter,
     Group 1 (lits ["filter"; "only"; "just"; "with"; "has"; "have"; "need";
                    "must"]));
    (finance,
     Group 1 (lits ["finance"; "payment"; "lease"; "buy"; "purchase";
                    "monthly"; "afford"; "price"; "cost"])) ].

(** The loop over [Object.entries(INTENT_PATTERNS)], each pattern tested on
    the text as it came, and the default behind it. *)
Fixpoint firstIntent (entries : list (Intent * regex)) (text : string)
  : Intent :=
  match entries with
  | [] => search
  | (intent, pattern) :: entries' =>
    if test true pattern text then intent else firstIntent entries' text
  end.

(** The source also binds [lowerText] and does not use it. *)
Definition detectIntent (text : string) : Intent :=
  firstIntent INTENT_PATTERNS text.

End Js.

End Nlu.

(** * Vocabulary of the specification *)

Local Open Scope Q_scope.

Module FinancingSpec.

Import Financing.

(** The fixture with a negative trade-in value. *)
Definition negativeTradeIn : FinancingParams :=
  {| price := 30000; downPayment := 2000; apr := 5.5; termMonths := 60;
     isLease := false; isSubscription := false; residualValue := None;
     tradeInValue := -5000; taxRate := 0.08 |}.

(** The fixture with a tax rate of 200%. *)
Definition taxRateTwo : FinancingParams :=
  {| price := 30000; downPayment := 2000; apr := 5.5; termMonths := 60;
     isLease := false; isSubscription := false; residualValue := None;
     tradeInValue := 0; taxRate := 2 |}.

(** The fixture with a negative down payment. *)
Definition negativeDownPayment : FinancingParams :=
  {| price := 30000; downPayment := -2000; apr := 5.5; termMonths := 60;
     isLease := false; isSubscription := false; residualValue := None;
     tradeInValue := 0; taxRate := 0.08 |}.

End FinancingSpec.

Module NluSpec.

Import Nlu.

Local Open Scope string_scope.

(** [f] holds of [s] or of one of its suffixes. *)
Fixpoint any_suffix (f : string -> bool) (s : string) : bool :=
  f s || match s with
         | EmptyString => false
         | String _ s' => any_suffix f s'
         end.

(** The text contains one of the keywords, letter case aside. *)
Definition mentions (text : string) (keywords : list string) : bool :=
  existsb (includes (toLowerCase text)) keywords.

(** The compare keywords of the specification. *)
Definition compareKeywords : list string :=
  ["vs"; "versus"; "compare"; "compared to"].

(** The finance keywords of the pattern in services/nlu.ts. *)
Definition financeKeywords : list string :=
  ["finance"; "payment"; "lease"; "buy"; "purchase"; "monthly"; "afford";
   "price"; "cost"].

(** The filter keywords of the pattern in services/nlu.ts. *)
Definition filterKeywords : list string :=
  ["filter"; "only"; "just"; "with"; "has"; "need"; "must"].

(** The precedence of the specification: compare, then finance, then filter,
    then search. *)
Definition intent_by_precedence (text : string) : Intent :=
  if mentions text compareKeywords then compare
  else if mentions text financeKeywords then finance
  else if mentions text filterKeywords then filter
  else search.

(** The keywords of the patterns in server/utils/nlu.js. *)
Definition jsSearchKeywords : list string :=
  ["show"; "find"; "search"; "look for"; "display"; "list"; "get"; "see";
   "want"; "need"; "looking for"].

Definition jsCompareKeywords : list string :=
  ["compare"; "vs"; "versus"; "compared to"; "comparison"; "difference";
   "different"; "versus"; "against"].

Definition jsFilterKeywords : list string :=
  ["filter"; "only"; "just"; "with"; "has"; "have"; "need"; "must"].

(** The order server/utils/nlu.js tries the intents in. *)
Definition intent_by_table_order (text : string) : Intent :=
  if mentions text jsSearchKeywords then search
  else if mentions text jsCompareKeywords then compare
  else if mentions text jsFilterKeywords then filter
  else if mentions text financeKeywords then finance
  else search.

(** A string of decimal digits. *)
Fixpoint all_digits (s : string) : bool :=
  match s with
  | EmptyString => true
  | String c s' => is_digit c && all_digits s'
  end.

(** A text of ASCII characters only.  On such a text the letter case and
    the white space of JavaScript are those of this model. *)
Definition is_ascii (c : ascii) : bool :=
  match c with
  | Ascii _ _ _ _ _ _ _ b7 => negb b7
  end.

Fixpoint ascii_only (s : string) : bool :=
  match s with
  | EmptyString => true
  | String c s' => is_ascii c && ascii_only s'
  end.

End NluSpec.

(** ** The comparison handler of server/index.ts *)

Module Server.

Import Financing.

Local Open Scope Q_scope.

(** The parameters the comparison handler prices a vehicle with. *)
Definition comparisonParams (msrp : Q) : FinancingParams :=
  {| price := msrp; downPayment := 2000; apr := 5.5; termMonths := 60;
     isLease := false; isSubscription := false; residualValue := None;
     tradeInValue := 0; taxRate := 0.08 |}.

End Server.

(** ** More text helpers *)

Module Text.

Local Open Scope string_scope.

(** [toUpperCase] of one byte: the ASCII small letters move up. *)
Definition upper (c : ascii) : ascii :=
  let n := N_of_ascii c in
  if ((97 <=? n) && (n <=? 122))%N then ascii_of_N (n - 32) else c.

(** [String.prototype.toUpperCase]. *)
Fixpoint toUpperCase (s : string) : string :=
  match s with
  | EmptyString => EmptyString
  | String c s' => String (upper c) (toUpperCase s')
  end.

(** [s.charAt(0).toUpperCase() + s.slice(1)] *)
Definition capitalize (s : string) : string :=
  match s with
  | EmptyString => EmptyString
  | String c s' => String (upper c) s'
  end.

(** [s.substring(0, 3)] *)
Definition first3 (s : string) : string := substring 0 3 s.

Definition is_space (c : ascii) : bool :=
  let n := N_of_ascii c in ((9 <=? n) && (n <=? 13) || (n =? 32))%N.

(** A word character of a regular expression: letter, digit, underscore. *)
Definition is_word (c : ascii) : bool :=
  let n := N_of_ascii c in
  ((48 <=? n) && (n <=? 57) || (65 <=? n) && (n <=? 90)
   || (97 <=? n) && (n <=? 122) || (n =? 95))%N.

Fixpoint trimStart (s : string) : string :=
  match s with
  | String c s' => if is_space c then trimStart s' else s
  | EmptyString => s
  end.

(** The string without its trailing white space. *)
Fixpoint trimEnd (s : string) : string :=
  match s with
  | EmptyString => EmptyString
  | String c s' =>
    match trimEnd s' with
    | EmptyString => if is_space c then EmptyString else String c EmptyString
    | t => String c t
    end
  end.

(** [String.prototype.trim], on the ASCII white space. *)
Definition trim (s : string) : string := trimEnd (trimStart s).

Definition starts_with_word (s : string) : bool :=
  match s with
  | String c _ => is_word c
  | EmptyString => false
  end.

(** [/\bw\b/i.test(s)] for a literal [w] that starts and ends with a word
    character: [w] occurs with no word character right before it and none
    right behind it.  [before] tells whether the character before [s] is a
    word character. *)
Fixpoint word_from (before : bool) (w s : string) : bool :=
  (negb before
   && match Regex.strip_prefix true w s with
      | Some rest => negb (starts_with_word rest)
      | None => false
      end)
  || match s with
     | String c s' => word_from (is_word c) w s'
     | EmptyString => false
     end.

Definition word_test (w s : string) : bool := word_from false w s.

(** The rest of [s] behind a match of [r] at its head. *)
Definition match_rest (r : Regex.regex) (s : string) : option string :=
  match Regex.run true r s [] (fun rest _ => Some [(0%nat, rest)]) with
  | Some caps => Some (Regex.group 0 caps)
  | None => None
  end.

(** The loop of [String.prototype.split] at a regular expression without
    groups, under the [i] flag: [cur] is the part being read, [s] the text
    ahead.  A match that is empty and sits where the part begins is passed
    over. *)
Fixpoint splitLoop (fuel : nat) (r : Regex.regex) (cur s : string)
  : list string :=
  match fuel with
  | O => [cur ++ s]
  | S fuel' =>
    match s with
    | EmptyString => [cur]
    | String c s' =>
      match match_rest r s with
      | Some rest =>
        if (String.length rest =? String.length s)%nat
           && (String.length cur =? 0)%nat
        then splitLoop fuel' r (cur ++ String c EmptyString) s'
        else cur :: splitLoop fuel' r EmptyString rest
      | None => splitLoop fuel' r (cur ++ String c EmptyString) s'
      end
    end
  end.

(** [s.split(r)] *)
Definition split (r : Regex.regex) (s : string) : list string :=
  match s with
  | EmptyString =>
    match match_rest r s with
    | Some _ => []
    | None => [EmptyString]
    end
  | _ => splitLoop (2 * String.length s + 1) r EmptyString s
  end.

End Text.

(** ** The catalog *)

Module Catalog.

(** shared/types.ts, [VehicleColor]. *)
Record VehicleColor : Type := {
  name : string;
  code : string;
  imageUrl : string;
  hex : string
}.

(** shared/types.ts, [Vehicle]: the fields the functions below read. *)
Record Vehicle : Type := {
  id : string;
  make : string;
  model : string;
  trim : string;
  msrp : Q;
  colors : list VehicleColor
}.

End Catalog.

(** ** services/nlu.ts, the other functions *)

Module NluTs.

Import Regex Nlu Text Catalog.

Local Open Scope string_scope.
Local Open Scope regex_scope.

(** [COLOR_SYNONYMS], in the order of the object literal. *)
Definition COLOR_SYNONYMS : list (string * list string) :=
  [ ("white", ["white"; "pearl"; "ice"; "snow"; "wht"; "wind chill";
               "platinum"]);
    ("black", ["black"; "midnight"; "jet"; "onyx"; "blk"; "obsidian"]);
    ("red", ["red"; "ruby"; "flare"; "supersonic"; "soul red"; "radiant";
             "crimson"]);
    ("blue", ["blue"; "blueprint"; "still night"; "navy"; "azure"; "cobalt"]);
    ("silver", ["silver"; "celestial"; "metallic"; "slv"; "chrome"]);
    ("gray", ["gray"; "grey"; "lunar"; "meteoroid"; "polymetal"; "charcoal"]);
    ("grey", ["gray"; "grey"; "lunar"; "meteoroid"; "polymetal"; "charcoal"])
  ].

(** The first of [synonyms] that [lowerText] includes. *)
Fixpoint firstIncluded (lowerText : string) (synonyms : list string)
  : option string :=
  match synonyms with
  | [] => None
  | synonym :: synonyms' =>
    if includes lowerText synonym then Some synonym
    else firstIncluded lowerText synonyms'
  end.

(** The color returned when no color of a vehicle is. *)
Definition genericColor (color : string) : VehicleColor :=
  {| name := capitalize color;
     code := first3 (toUpperCase color);
     imageUrl := "";
     hex := "#000000" |}.

(** [vehicle.colors.find(c => ...)] *)
Definition findColor (vehicle : Vehicle) (color synonym : string)
  : option VehicleColor :=
  find (fun c =>
          includes (toLowerCase (name c)) synonym
          || String.eqb (toLowerCase (code c)) (first3 (toUpperCase color)))
       (colors vehicle).

(** The loops of [extractColor] over the entries of the table. *)
Fixpoint extractColorFrom (entries : list (string * list string))
  (lowerText : string) (vehicle : option Vehicle) : option VehicleColor :=
  match entries with
  | [] => None
  | (color, synonyms) :: entries' =>
    match firstIncluded lowerText synonyms with
    | Some synonym =>
      match vehicle with
      | Some v =>
        match findColor v color synonym with
        | Some m => Some m
        | None => Some (genericColor color)
        end
      | None => Some (genericColor color)
      end
    | None => extractColorFrom entries' lowerText vehicle
    end
  end.

Definition extractColor (text : string) (vehicle : option Vehicle)
  : option VehicleColor :=
  let lowerText := toLowerCase text in
  extractColorFrom COLOR_SYNONYMS lowerText vehicle.

(** The [filters] object of the entities. *)
Record Filters : Type := {
  f_type : option string;
  f_drivetrain : option string;
  f_fuelType : option string;
  f_make : option string;
  f_mpg : option number
}.

(** The [entities] object of an [NLUResult]. *)
Record Entities : Type := {
  vehicles : option (list string);
  e_colors : option (list string);
  priceRange : option PriceRange;
  filters : option Filters
}.

(** A number is truthy unless it is 0 or NaN; an absent one is falsy. *)
Definition truthy (x : option number) : bool :=
  match x with
  | Some (Num n) => negb (n =? 0)%Z
  | _ => false
  end.

(** The colors whose synonyms the text mentions, in the order of the
    table. *)
Fixpoint mentionedColors (entries : list (string * list string))
  (lowerText : string) : list string :=
  match entries with
  | [] => []
  | (color, synonyms) :: entries' =>
    if existsb (includes lowerText) synonyms
    then color :: mentionedColors entries' lowerText
    else mentionedColors entries' lowerText
  end.

(** The first of [makes] that [lowerText] includes, capitalized. *)
Fixpoint firstMake (makes : list string) (lowerText : string)
  : option string :=
  match makes with
  | [] => None
  | make :: makes' =>
    if includes lowerText make then Some (capitalize make)
    else firstMake makes' lowerText
  end.

(** [/(\d+)\s*mpg/i] *)
Definition mpgRe : regex :=
  Group 1 (digit +++ Star digit) +++ Star space +++ Lit "mpg".

Definition extractFilterFields (lowerText : string) : Filters :=
  let type :=
    if test true (lits ["suv"; "sport utility"]) lowerText then Some "SUV"
    else if test true (Lit "sedan") lowerText then Some "Sedan"
    else if test true (lits ["truck"; "pickup"]) lowerText then Some "Truck"
    else None in
  let drivetrain :=
    if word_test "awd" lowerText then Some "AWD"
    else if word_test "4wd" lowerText then Some "4WD"
    else if word_test "fwd" lowerText then Some "FWD"
    else None in
  let fuelType :=
    if test true (Lit "hybrid") lowerText then
      if test true (lits ["plug-in"; "plugin"; "phev"]) lowerText
      then Some "Plug-in Hybrid" else Some "Hybrid"
    else if test true (lits ["electric"; "ev"; "battery"]) lowerText
      then Some "Electric"
    else if test true (lits ["gas"; "gasoline"]) lowerText
      then Some "Gasoline"
    else None in
  let make :=
    firstMake ["toyota"; "honda"; "mazda"; "ford"; "nissan"] lowerText in
  let mpg :=
    match exec true mpgRe lowerText with
    | Some mpgMatch => Some (parseInt (group 1 mpgMatch))
    | None =>
      if test true (lits ["efficient"; "good gas"]) lowerText
      then Some (Num 35) else None
    end in
  {| f_type := type; f_drivetrain := drivetrain; f_fuelType := fuelType;
     f_make := make; f_mpg := mpg |}.

(** [Object.keys(filters).length > 0] *)
Definition hasKeys (f : Filters) : bool :=
  is_some (f_type f) || is_some (f_drivetrain f) || is_some (f_fuelType f)
  || is_some (f_make f) || is_some (f_mpg f).

(** [extractEntities]; [fuseSearch] stands for
    [vehicleFuse.search(text, { limit: 5 })], the library call, and gives the
    items found. *)
Definition extractEntities (fuseSearch : string -> list Vehicle)
  (text : string) : Entities :=
  let lowerText := toLowerCase text in
  let vehicleResults := fuseSearch text in
  let vehicles :=
    match vehicleResults with
    | [] => None
    | _ => Some (map id vehicleResults)
    end in
  let colors := mentionedColors COLOR_SYNONYMS lowerText in
  let colors' :=
    match colors with
    | [] => None
    | _ => Some colors
    end in
  let priceRange := Ts.extractPriceRange text in
  let priceRange' :=
    if truthy (min priceRange) || truthy (max priceRange)
    then Some priceRange else None in
  let filters := extractFilterFields lowerText in
  {| vehicles := vehicles; e_colors := colors'; priceRange := priceRange';
     filters := if hasKeys filters then Some filters else None |}.

(** [/\s+vs\.?\s+|versus|compared to|compare/i] *)
Definition separatorRe : regex :=
  Alt (space +++ Star space +++ Lit "vs" +++ Opt (Lit ".")
       +++ space +++ Star space)
      (Alt (Lit "versus") (Alt (Lit "compared to") (Lit "compare"))).

(** One side of a comparison. *)
Record Subject : Type := {
  vehicle : Vehicle;
  color : option VehicleColor
}.

Record Comparison : Type := {
  vehicle1 : option Subject;
  vehicle2 : option Subject
}.

(** [parseComparison]; [fuseTop] stands for
    [vehicleFuse.search(part, { limit: 1 })], the library call. *)
Definition parseComparison (fuseTop : string -> list Vehicle) (text : string)
  : Comparison :=
  let parts := split separatorRe text in
  match parts with
  | part1 :: part2 :: _ =>
    let part1 := Text.trim part1 in
    let part2 := Text.trim part2 in
    let vehicle1 := hd_error (fuseTop part1) in
    let vehicle2 := hd_error (fuseTop part2) in
    let color1 := extractColor part1 vehicle1 in
    let color2 := extractColor part2 vehicle2 in
    {| vehicle1 :=
         match vehicle1 with
         | Some v => Some {| vehicle := v; color := color1 |}
         | None => None
         end;
       vehicle2 :=
         match vehicle2 with
         | Some v => Some {| vehicle := v; color := color2 |}
         | None => None
         end |}
  | _ => {| vehicle1 := None; vehicle2 := None |}
  end.

Record NLUResult : Type := {
  intent : Intent;
  entities : Entities;
  confidence : Q
}.

(** [Math.min] *)
Definition Math_min (x y : Q) : Q := if Qle_bool x y then x else y.

Definition parseQuery (fuseSearch : string -> list Vehicle) (text : string)
  : NLUResult :=
  let intent := Ts.detectIntent text in
  let entities := extractEntities fuseSearch text in
  let confidence := 0.5%Q in
  let confidence :=
    match vehicles entities with
    | Some (_ :: _) => (confidence + 0.3)%Q
    | _ => confidence
    end in
  let confidence :=
    match e_colors entities with
    | Some (_ :: _) => (confidence + 0.1)%Q
    | _ => confidence
    end in
  let confidence :=
    match priceRange entities with
    | Some _ => (confidence + 0.1)%Q
    | None => confidence
    end in
  {| intent := intent; entities := entities;
     confidence := Math_min confidence 1.0%Q |}.

End NluTs.

Module NluTsSpec.

Import Nlu Text Catalog NluTs.

Local Open Scope string_scope.

(** Every synonym of the color table. *)
Definition allSynonyms : list string := flat_map snd COLOR_SYNONYMS.

(** The generic colors [extractColor] can return. *)
Definition genericColors : list VehicleColor :=
  map genericColor ["white"; "black"; "red"; "blue"; "silver"; "gray"].

(** The colors of the entities, none when the field is absent. *)
Definition colorList (e : Entities) : list string :=
  match e_colors e with
  | Some l => l
  | None => []
  end.

(** An ASCII capital letter. *)
Definition is_upper (c : ascii) : bool :=
  let n := N_of_ascii c in ((65 <=? n) && (n <=? 90))%N.

Definition starts_upper (s : string) : bool :=
  match s with
  | String c _ => is_upper c
  | EmptyString => false
  end.

(** A vehicle with a color named "Ocean" whose code is "BLU". *)
Definition oceanVehicle : Vehicle :=
  {| id := "v1"; make := "Toyota"; model := "Camry"; trim := "LE";
     msrp := 30000;
     colors := [ {| name := "Ocean"; code := "BLU"; imageUrl := "ocean.png";
                    hex := "#0000ff" |} ] |}.

(** The colors of the vehicle, if one is given, have ASCII names. *)
Definition ascii_colors (vehicle : option Vehicle) : bool :=
  match vehicle with
  | Some v => forallb (fun k => NluSpec.ascii_only (name k)) (colors v)
  | None => true
  end.

(** The first color of a vehicle whose name, in lower case, holds a
    synonym. *)
Definition colorNamed (v : Vehicle) (synonym : string)
  : option VehicleColor :=
  find (fun k => includes (toLowerCase (name k)) synonym) (colors v).

(** A vehicle with the colors Midnight Black and Ocean. *)
Definition twoColorVehicle : Vehicle :=
  {| id := "v2"; make := "Toyota"; model := "Camry"; trim := "XSE";
     msrp := 30000;
     colors := [ {| name := "Midnight Black"; code := "218";
                    imageUrl := ""; hex := "#000000" |};
                 {| name := "Ocean"; code := "BLU"; imageUrl := "";
                    hex := "#0000ff" |} ] |}.

End NluTsSpec.

(** ** server/utils/nlu.js, the other functions

    [vehiclesData] is the catalog the module loads when it starts (empty when
    the file is missing); the functions read it and never change it, so it is
    a parameter here. *)

Module NluJs.

Import Regex Nlu Text Catalog.

Local Open Scope string_scope.
Local Open Scope regex_scope.

(** [COLOR_MAP], in the order of the object literal. *)
Definition COLOR_MAP : list (string * list string) :=
  [ ("white", ["white"; "pearl"; "ice"; "snow"; "wht"; "wht"; "wind chill";
               "platinum"]);
    ("black", ["black"; "midnight"; "jet"; "onyx"; "blk"; "obsidian"]);
    ("red", ["red"; "ruby"; "flare"; "supersonic"; "soul red"; "radiant";
             "crimson"; "scarlet"]);
    ("blue", ["blue"; "blueprint"; "still night"; "navy"; "azure"; "cobalt"]);
    ("silver", ["silver"; "celestial"; "metallic"; "slv"; "chrome";
                "platinum"]);
    ("gray", ["gray"; "grey"; "lunar"; "meteoroid"; "polymetal"; "charcoal";
              "graphite"]);
    ("grey", ["gray"; "grey"; "lunar"; "meteoroid"; "polymetal"; "charcoal";
              "graphite"]) ].

(** [MODEL_ALIASES] *)
Definition MODEL_ALIASES : list (string * list string) :=
  [ ("camry", ["camry"; "camery"; "camery"]);
    ("rav4", ["rav4"; "rav 4"; "rav-4"; "rav"]);
    ("corolla", ["corolla"; "corola"; "corala"]);
    ("accord", ["accord"; "acord"]);
    ("mazda3", ["mazda3"; "mazda 3"; "mazda-3"; "m3"]);
    ("prius", ["prius"; "prious"]);
    ("highlander", ["highlander"; "highland"]);
    ("4runner", ["4runner"; "4 runner"; "four runner"]);
    ("tacoma", ["tacoma"; "tocoma"]);
    ("sequoia", ["sequoia"; "sequoya"]) ].

(** [MAKE_ALIASES] *)
Definition MAKE_ALIASES : list (string * list string) :=
  [ ("toyota", ["toyota"; "toy"; "toyo"]);
    ("honda", ["honda"; "hond"]);
    ("mazda", ["mazda"; "maz"]);
    ("ford", ["ford"; "frd"]);
    ("nissan", ["nissan"; "nisan"]) ].

(** What [extractColor] returns: a color option of the catalog, or a name
    and a code only. *)
Record Color : Type := {
  c_name : string;
  c_code : string;
  c_hex : option string;
  c_imageUrl : option string
}.

(** [s.split(' ')[0]]: the text before the first space. *)
Fixpoint firstWord (s : string) : string :=
  match s with
  | EmptyString => EmptyString
  | String c s' =>
    if Ascii.eqb c " " then EmptyString else String c (firstWord s')
  end.

(** The test of a color option against a variation. *)
Definition optionMatches (variation : string) (colorOption : VehicleColor)
  : bool :=
  let colorName := toLowerCase (name colorOption) in
  includes colorName variation || includes variation (firstWord colorName).

(** The loops over the vehicles and their color options. *)
Fixpoint firstOption (vehiclesData : list Vehicle) (variation : string)
  : option VehicleColor :=
  match vehiclesData with
  | [] => None
  | vehicle :: vehicles' =>
    match find (optionMatches variation) (colors vehicle) with
    | Some colorOption => Some colorOption
    | None => firstOption vehicles' variation
    end
  end.

(** The first of [variations] that [lowerText] includes. *)
Fixpoint firstVariation (lowerText : string) (variations : list string)
  : option string :=
  match variations with
  | [] => None
  | variation :: variations' =>
    if includes lowerText variation then Some variation
    else firstVariation lowerText variations'
  end.

Fixpoint extractColorFrom (vehiclesData : list Vehicle)
  (entries : list (string * list string)) (lowerText : string)
  : option Color :=
  match entries with
  | [] => None
  | (color, variations) :: entries' =>
    match firstVariation lowerText variations with
    | Some variation =>
      match firstOption vehiclesData variation with
      | Some colorOption =>
        Some {| c_name := name colorOption; c_code := code colorOption;
                c_hex := Some (hex colorOption);
                c_imageUrl := Some (imageUrl colorOption) |}
      | None =>
        Some {| c_name := color; c_code := first3 (toUpperCase color);
                c_hex := None; c_imageUrl := None |}
      end
    | None => extractColorFrom vehiclesData entries' lowerText
    end
  end.

Definition extractColor (vehiclesData : list Vehicle) (text : string)
  : option Color :=
  let lowerText := toLowerCase text in
  extractColorFrom vehiclesData COLOR_MAP lowerText.

(** The second loop of [fuzzyMatchModel]: the first alias in the text whose
    model some vehicle of the catalog carries. *)
Fixpoint aliasMatch (vehiclesData : list Vehicle)
  (entries : list (string * list string)) (lowerText : string)
  : option Vehicle :=
  match entries with
  | [] => None
  | (model, aliases) :: entries' =>
    (fix inner (aliases : list string) : option Vehicle :=
       match aliases with
       | [] => aliasMatch vehiclesData entries' lowerText
       | alias :: aliases' =>
         if includes lowerText alias then
           match
             List.filter (fun v => includes (toLowerCase (Catalog.model v)) model)
                    vehiclesData
           with
           | v :: _ => Some v
           | [] => inner aliases'
           end
         else inner aliases'
       end) aliases
  end.

(** The third loop of [fuzzyMatchModel], on the makes. *)
Fixpoint makeMatch (vehiclesData : list Vehicle)
  (entries : list (string * list string)) (lowerText : string)
  : option Vehicle :=
  match entries with
  | [] => None
  | (make, aliases) :: entries' =>
    (fix inner (aliases : list string) : option Vehicle :=
       match aliases with
       | [] => makeMatch vehiclesData entries' lowerText
       | alias :: aliases' =>
         if includes lowerText alias then
           match
             List.filter (fun v => String.eqb (toLowerCase (Catalog.make v)) make)
                    vehiclesData
           with
           | v :: _ => Some v
           | [] => inner aliases'
           end
         else inner aliases'
       end) aliases
  end.

(** The test of the first loop of [fuzzyMatchModel]. *)
Definition directMatch (lowerText : string) (vehicle : Vehicle) : bool :=
  let fullName :=
    toLowerCase (Catalog.make vehicle ++ " " ++ Catalog.model vehicle) in
  let modelName := toLowerCase (Catalog.model vehicle) in
  includes lowerText fullName || includes lowerText modelName.

Definition fuzzyMatchModel (vehiclesData : list Vehicle) (text : string)
  : option Vehicle :=
  let lowerText := Text.trim (toLowerCase text) in
  match find (directMatch lowerText) vehiclesData with
  | Some vehicle => Some vehicle
  | None =>
    match aliasMatch vehiclesData MODEL_ALIASES lowerText with
    | Some vehicle => Some vehicle
    | None => makeMatch vehiclesData MAKE_ALIASES lowerText
    end
  end.

(** The object [extractFilters] returns; [category] is added to it when a
    size is read. *)
Record Filters : Type := {
  type : option string;
  category : option string;
  drivetrain : option string;
  fuelType : option string;
  electrified : option bool;
  priceRange : PriceRange;
  mpg : option number;
  color : option Color;
  make : option string;
  model : option string
}.

(** The loops over [MAKE_ALIASES] in [extractFilters]: [break] leaves the
    loop over the aliases only, a later make overwrites an earlier one. *)
Fixpoint filterMake (entries : list (string * list string))
  (lowerText : string) (make : option string) : option string :=
  match entries with
  | [] => make
  | (m, aliases) :: entries' =>
    filterMake entries' lowerText
      (if existsb (includes lowerText) aliases then Some (capitalize m)
       else make)
  end.

(** [/(\d+)\s*mpg/i] *)
Definition mpgRe : regex :=
  Group 1 (digit +++ Star digit) +++ Star space +++ Lit "mpg".

Definition extractFilters (vehiclesData : list Vehicle) (text : string)
  : Filters :=
  let lowerText := toLowerCase text in
  let has := includes lowerText in
  let '(type, category) :=
    if has "suv" || has "sport utility" then
      let category := if has "compact" then Some "Compact" else None in
      let category :=
        if has "midsize" || has "mid-size" then Some "Midsize"
        else category in
      let category :=
        if has "full-size" || has "full size" then Some "Full-Size"
        else category in
      (Some "SUV", category)
    else if has "sedan" then (Some "Sedan", None)
    else if has "truck" || has "pickup" then (Some "Truck", None)
    else if has "compact" && negb (has "suv") then (None, Some "Compact")
    else (None, None) in
  let drivetrain :=
    if word_test "awd" lowerText || has "all-wheel drive" || has "all wheel"
    then Some "AWD"
    else if word_test "4wd" lowerText || has "four-wheel drive"
            || has "4 wheel"
    then Some "4WD"
    else if word_test "fwd" lowerText || has "front-wheel drive"
    then Some "FWD"
    else None in
  let '(fuelType, electrified) :=
    if has "hybrid" then
      if has "plug-in" || has "plugin" || has "phev"
      then (Some "Plug-in Hybrid", Some true)
      else (Some "Hybrid", Some true)
    else if has "electric" || has "ev" || has "battery"
      then (Some "Electric", Some true)
    else if has "gas" || has "gasoline" || has "petrol"
      then (Some "Gasoline", Some false)
    else (None, None) in
  let mpg :=
    match exec true mpgRe lowerText with
    | Some mpgMatch => Some (parseInt (group 1 mpgMatch))
    | None =>
      if has "efficient" || has "good gas mileage" || has "fuel efficient"
      then Some (Num 35) else None
    end in
  let make := filterMake MAKE_ALIASES lowerText None in
  let modelMatch := fuzzyMatchModel vehiclesData text in
  let '(make, model) :=
    match modelMatch with
    | Some v => (Some (Catalog.make v), Some (Catalog.model v))
    | None => (make, None)
    end in
  {| type := type; category := category; drivetrain := drivetrain;
     fuelType := fuelType; electrified := electrified;
     priceRange := Js.extractPriceRange text; mpg := mpg;
     color := extractColor vehiclesData text; make := make; model := model |}.

(** [/\s+vs\.?\s+|versus|compared to|compare/i] *)
Definition separatorRe : regex :=
  Alt (space +++ Star space +++ Lit "vs" +++ Opt (Lit ".")
       +++ space +++ Star space)
      (Alt (Lit "versus") (Alt (Lit "compared to") (Lit "compare"))).

Record Subject : Type := {
  vehicle : Vehicle;
  s_color : option Color
}.

Record Comparison : Type := {
  vehicle1 : option Subject;
  vehicle2 : option Subject
}.

(** [parseComparison]; [None] is the [null] of a text without separator. *)
Definition parseComparison (vehiclesData : list Vehicle) (text : string)
  : option Comparison :=
  let comparisonParts := split separatorRe text in
  match comparisonParts with
  | part1 :: part2 :: _ =>
    let vehicle1Text := Text.trim part1 in
    let vehicle2Text := Text.trim part2 in
    let vehicle1 := fuzzyMatchModel vehiclesData vehicle1Text in
    let vehicle2 := fuzzyMatchModel vehiclesData vehicle2Text in
    let color1 := extractColor vehiclesData vehicle1Text in
    let color2 := extractColor vehiclesData vehicle2Text in
    Some {| vehicle1 :=
              match vehicle1 with
              | Some v => Some {| vehicle := v; s_color := color1 |}
              | None => None
              end;
            vehicle2 :=
              match vehicle2 with
              | Some v => Some {| vehicle := v; s_color := color2 |}
              | None => None
              end |}
  | _ => None
  end.

Record ParsedQuery : Type := {
  intent : Intent;
  filters : Filters;
  comparison : option Comparison;
  originalText : string
}.

Definition parseQuery (vehiclesData : list Vehicle) (text : string)
  : ParsedQuery :=
  let intent := Js.detectIntent text in
  let filters := extractFilters vehiclesData text in
  let comparison :=
    match intent with
    | compare => parseComparison vehiclesData text
    | _ => None
    end in
  {| intent := intent; filters := filters; comparison := comparison;
     originalText := text |}.

End NluJs.

Module NluJsSpec.

Import Nlu Text Catalog.

Local Open Scope string_scope.

(** The Camry and the Accord of the specification. *)
Definition camry : Vehicle :=
  {| id := "camry-hybrid-le"; make := "Toyota"; model := "Camry";
     trim := "LE Hybrid"; msrp := 30000;
     colors := [ {| name := "Blueprint"; code := "8X8";
                    imageUrl := "camry-blue.png"; hex := "#1f3a5f" |} ] |}.

Definition accord : Vehicle :=
  {| id := "accord-hybrid"; make := "Honda"; model := "Accord";
     trim := "Hybrid"; msrp := 32000;
     colors := [ {| name := "Lunar Silver"; code := "SI";
                    imageUrl := "accord-silver.png"; hex := "#c0c0c0" |} ] |}.

Definition twoVehicles : list Vehicle := [camry; accord].

End NluJsSpec.

(** ** The first server (server/index.js): query filters and filtering *)

Module Legacy.

Import Regex Nlu Text.

Local Open Scope string_scope.
Local Open Scope regex_scope.

(** A vehicle of the first catalog: the fields the functions below read. *)
Record Vehicle : Type := {
  id : string;
  make : string;
  model : string;
  price : Q;
  mpg : Q;
  drivetrain : string;
  type : string;
  fuelType : string
}.

(** The object [parseQueryFilters] returns. *)
Record Filters : Type := {
  f_type : option string;
  f_drivetrain : option string;
  f_fuelType : option string;
  minPrice : option number;
  maxPrice : option number;
  minMpg : option number;
  f_make : option string;
  f_model : option string;
  keywords : list string
}.

(** [s.replace(pat, rep)] at a string pattern: the first occurrence. *)
Fixpoint replaceFirst (pat rep s : string) : string :=
  match strip_prefix false pat s with
  | Some rest => rep ++ rest
  | None =>
    match s with
    | EmptyString => EmptyString
    | String c s' => String c (replaceFirst pat rep s')
    end
  end.

(** [m.replace(/[,k]/g, '')] *)
Fixpoint remove_commas_k (s : string) : string :=
  match s with
  | EmptyString => EmptyString
  | String c s' =>
    if (Ascii.eqb c "," || Ascii.eqb c "k")%char
    then remove_commas_k s'
    else String c (remove_commas_k s')
  end.

(** The [extract] of the price patterns on one group. *)
Definition extractAmount (m : string) : number :=
  times (parseInt (remove_commas_k m))
        (if includes (toLowerCase m) "k" then 1000 else 1).

(** [/\$?(\d{1,3}(?:,\d{3})*(?:k|thousand)?)\s*-\s*\$?(\d{1,3}(?:,\d{3})*(?:k|thousand)?)/i] *)
Definition rangeRe : regex :=
  Opt (Lit "$") +++ Group 1 priceRe +++ Star space +++ Lit "-"
  +++ Star space +++ Opt (Lit "$") +++ Group 2 priceRe.

(** The loop over [pricePatterns]: the first pattern that matches sets its
    bounds and ends the loop.  The result is ([minPrice], [maxPrice]). *)
Definition priceBounds (q : string) : option number * option number :=
  match exec true underRe q with
  | Some m => (None, Some (extractAmount (group 1 m)))
  | None =>
    match exec true rangeRe q with
    | Some m =>
      (Some (extractAmount (group 1 m)), Some (extractAmount (group 2 m)))
    | None =>
      if test true (lits ["affordable"; "cheap"; "budget"]) q
      then (None, Some (Num 30000))
      else if test true (lits ["luxury"; "premium"; "high-end"]) q
      then (Some (Num 50000), None)
      else (None, None)
    end
  end.

(** The first of [words] that [q] includes, turned by [f]. *)
Fixpoint firstOf (f : string -> string) (test : string -> string -> bool)
  (words : list string) (q : string) : option string :=
  match words with
  | [] => None
  | w :: words' =>
    if test q w then Some (f w) else firstOf f test words' q
  end.

(** [/(\d+)\s*mpg/i] *)
Definition mpgRe : regex :=
  Group 1 (digit +++ Star digit) +++ Star space +++ Lit "mpg".

(** [parseQueryFilters]; its second argument is not read. *)
Definition parseQueryFilters (query : string) : Filters :=
  let q := toLowerCase query in
  let has := includes q in
  let type :=
    if has "suv" || has "sport utility" then
      let type := "SUV" in
      let type := if has "compact" then "Compact SUV" else type in
      let type :=
        if has "midsize" || has "mid-size" then "Midsize SUV" else type in
      let type :=
        if has "full-size" || has "full size" then "Full-Size SUV"
        else type in
      Some type
    else if has "sedan" then Some "Sedan"
    else if has "truck" then Some "Midsize Truck"
    else if has "compact" && negb (has "suv") then Some "Compact"
    else None in
  let drivetrain :=
    if has "awd" || has "all-wheel drive" then Some "AWD" else None in
  let drivetrain :=
    if has "4wd" || has "four-wheel drive" || has "4 wheel" then Some "4WD"
    else drivetrain in
  let drivetrain :=
    if has "fwd" || has "front-wheel drive" then Some "FWD"
    else drivetrain in
  let fuelType :=
    if has "hybrid" then
      if has "plug-in" || has "plugin" || has "phev"
      then Some "Plug-in Hybrid" else Some "Hybrid"
    else if has "electric" || has "ev" then Some "Electric"
    else if has "gas" || has "gasoline" then Some "Gasoline"
    else None in
  let '(minPrice, maxPrice) := priceBounds q in
  let minMpg :=
    match exec true mpgRe q with
    | Some mpgMatch => Some (parseInt (group 1 mpgMatch))
    | None =>
      if has "efficient" || has "good gas mileage" then Some (Num 35)
      else None
    end in
  let make :=
    firstOf capitalize includes
      ["toyota"; "mazda"; "honda"; "ford"; "chevrolet"; "nissan"] q in
  let model :=
    firstOf (fun m => m)
      (fun q m => includes q (replaceFirst " " "" m) || includes q m)
      ["camry"; "corolla"; "rav4"; "prius"; "highlander"; "accord";
       "mazda3"; "mazda 3"; "explorer"] q in
  {| f_type := type; f_drivetrain := drivetrain; f_fuelType := fuelType;
     minPrice := minPrice; maxPrice := maxPrice; minMpg := minMpg;
     f_make := make; f_model := model; keywords := [] |}.

(** A filter string is truthy when it is there and not empty; [None] is
    [null]. *)
Definition given (x : option string) : option string :=
  match x with
  | Some EmptyString => None
  | _ => x
  end.

(** A numeric bound is truthy unless it is absent, 0 or NaN. *)
Definition bound (x : option number) : option Z :=
  match x with
  | Some (Num n) => if (n =? 0)%Z then None else Some n
  | _ => None
  end.

(** The callback of [filterVehicles]: [true] keeps the vehicle. *)
Definition keeps (filters : Filters) (vehicle : Vehicle) : bool :=
  let typeFails :=
    match given (f_type filters) with
    | Some t =>
      if negb (includes (type vehicle) (Text.trim (replaceFirst "SUV" "" t)))
         && negb (String.eqb (type vehicle) t)
      then
        if String.eqb t "SUV" && negb (includes (type vehicle) "SUV")
        then true
        else negb (String.eqb t "SUV") && negb (String.eqb (type vehicle) t)
      else false
    | None => false
    end in
  if typeFails then false
  else if match given (f_drivetrain filters) with
          | Some d => negb (String.eqb (drivetrain vehicle) d)
          | None => false
          end then false
  else if match given (f_fuelType filters) with
          | Some f => negb (String.eqb (fuelType vehicle) f)
          | None => false
          end then false
  else if match bound (minPrice filters) with
          | Some n => Qltb (price vehicle) (inject_Z n)
          | None => false
          end then false
  else if match bound (maxPrice filters) with
          | Some n => Qltb (inject_Z n) (price vehicle)
          | None => false
          end then false
  else if match bound (minMpg filters) with
          | Some n => Qltb (mpg vehicle) (inject_Z n)
          | None => false
          end then false
  else if match given (f_make filters) with
          | Some m =>
            negb (String.eqb (toLowerCase (make vehicle)) (toLowerCase m))
          | None => false
          end then false
  else if match given (f_model filters) with
          | Some m =>
            negb (includes (toLowerCase (model vehicle)) (toLowerCase m))
          | None => false
          end then false
  else true.

Definition filterVehicles (vehicles : list Vehicle) (filters : Filters)
  : list Vehicle :=
  List.filter (keeps filters) vehicles.

(** The filters with the type taken out. *)
Definition without_type (filters : Filters) : Filters :=
  {| f_type := None; f_drivetrain := f_drivetrain filters;
     f_fuelType := f_fuelType filters; minPrice := minPrice filters;
     maxPrice := maxPrice filters; minMpg := minMpg filters;
     f_make := f_make filters; f_model := f_model filters;
     keywords := keywords filters |}.

(** No constraint at all. *)
Definition noFilters : Filters :=
  {| f_type := None; f_drivetrain := None; f_fuelType := None;
     minPrice := None; maxPrice := None; minMpg := None;
     f_make := None; f_model := None; keywords := [] |}.

(** Two vehicles of the first catalog. *)
Definition camryXse : Vehicle :=
  {| id := "camry-2025-xse"; make := "Toyota"; model := "Camry XSE";
     price := 35000; mpg := 32; drivetrain := "FWD"; type := "Sedan";
     fuelType := "Gasoline" |}.

Definition rav4Hybrid : Vehicle :=
  {| id := "rav4-hybrid-2025-xle"; make := "Toyota";
     model := "RAV4 Hybrid XLE"; price := 36000; mpg := 40;
     drivetrain := "AWD"; type := "Compact SUV"; fuelType := "Hybrid" |}.

End Legacy.

(** ** The financing engine in binary64 arithmetic

    The numbers of the engine are IEEE 754 binary64 floats: each operation
    rounds to nearest, ties to even, a comparison with NaN is false, and a
    decimal literal stands for the nearest float.  This model computes with
    them, so the boundaries of the guards and the reported amounts are the
    ones of the code.  [Math.pow] is left a parameter: ECMAScript asks only
    for an approximation, and no property below depends on what it
    returns. *)

Module Double.

Local Open Scope float_scope.

(** The whole number [n] as a float (exact up to 2^53 in magnitude). *)
Definition of_Z (n : Z) : float :=
  match n with
  | Z0 => 0
  | Zpos _ => of_uint63 (Uint63.of_Z n)
  | Zneg m => - of_uint63 (Uint63.of_Z (Zpos m))
  end.

(** [Math.round]: a number that is not finite, or is whole, is returned as
    it is; otherwise the nearest whole number, a tie going up, with the sign
    of the argument kept on a zero. *)
Definition Math_round (x : float) : float :=
  match Prim2SF x with
  | S754_finite s m e =>
    if (0 <=? e)%Z then x
    else
      let n := if s then Zneg m else Zpos m in
      let d := (2 ^ (- e))%Z in
      let r := ((2 * n + d) / (2 * d))%Z in
      if (r =? 0)%Z then (if s then neg_zero else zero) else of_Z r
  | _ => x
  end.

(** A number is falsy when it is 0, -0 or NaN. *)
Definition falsy (x : float) : bool := (x =? 0) || is_nan x.

(** [x || y] at an optional number [x]. *)
Definition js_or (x : option float) (y : float) : float :=
  match x with
  | Some v => if falsy v then y else v
  | None => y
  end.

(** [FinancingParams] of shared/types.ts. *)
Record FinancingParams : Type := {
  price : float;
  downPayment : float;
  apr : float;
  termMonths : float;
  isLease : bool;
  isSubscription : bool;
  residualValue : option float;
  tradeInValue : float;
  taxRate : float
}.

(** The [breakdown] of a [PaymentCalculation]. *)
Record Breakdown : Type := {
  principal : option float;
  interest : option float;
  taxes : float;
  tradeIn : option float;
  depreciation : option float;
  finance : option float;
  vehicle : option float;
  insurance : option float;
  maintenance : option float
}.

(** [PaymentCalculation] of shared/types.ts; its field [residualValue] is
    [leaseResidualValue] here. *)
Record PaymentCalculation : Type := {
  monthlyPayment : float;
  totalCost : float;
  totalInterest : option float;
  leaseResidualValue : option float;
  breakdown : Breakdown;
  type : Financing.ScenarioType
}.

(** [calculateLease] *)
Definition calculateLease (params : FinancingParams)
  : result PaymentCalculation :=
  let price := price params in
  let downPayment := downPayment params in
  let apr := apr params in
  let termMonths := termMonths params in
  let residualValue := residualValue params in
  let tradeInValue := tradeInValue params in
  let taxRate := taxRate params in
  if price <=? 0 then Throw "Price must be positive"
  else if termMonths <=? 0 then Throw "Term must be positive"
  else if downPayment <? 0 then Throw "Down payment cannot be negative"
  else
    let tax := price * taxRate in
    let adjustedPrice := price + tax in
    let netPrice := adjustedPrice - tradeInValue - downPayment in
    let residual := js_or residualValue (Math_round (price * 0.55)) in
    if netPrice <=? residual
    then Throw "Residual value cannot exceed net price"
    else
      let depreciation := netPrice - residual in
      let monthlyDepreciation := depreciation / termMonths in
      let moneyFactor := apr / 2400 in
      let monthlyFinance := (netPrice + residual) * moneyFactor in
      let monthlyPayment := monthlyDepreciation + monthlyFinance in
      let totalCost :=
        monthlyPayment * termMonths + downPayment + tradeInValue in
      Ok {| monthlyPayment := Math_round monthlyPayment;
            totalCost := Math_round totalCost;
            totalInterest := None;
            leaseResidualValue := Some residual;
            breakdown := {| principal := None;
                            interest := None;
                            taxes := Math_round tax;
                            tradeIn := Some tradeInValue;
                            depreciation :=
                              Some (Math_round monthlyDepreciation);
                            finance := Some (Math_round monthlyFinance);
                            vehicle := None;
                            insurance := None;
                            maintenance := None |};
            type := Financing.lease |}.

(** [calculateSubscription] *)
Definition calculateSubscription (params : FinancingParams)
  : result PaymentCalculation :=
  let price := price params in
  let downPayment := downPayment params in
  let termMonths := termMonths params in
  let tradeInValue := tradeInValue params in
  let taxRate := taxRate params in
  if price <=? 0 then Throw "Price must be positive"
  else if termMonths <=? 0 then Throw "Term must be positive"
  else
    let tax := price * taxRate in
    let adjustedPrice := price + tax in
    let netPrice := adjustedPrice - tradeInValue - downPayment in
    let vehiclePortion := (netPrice * 0.6) / termMonths in
    let insurance := 150 in
    let maintenance := 100 in
    let monthlyPayment := vehiclePortion + insurance + maintenance in
    let totalCost :=
      monthlyPayment * termMonths + downPayment + tradeInValue in
    Ok {| monthlyPayment := Math_round monthlyPayment;
          totalCost := Math_round totalCost;
          totalInterest := None;
          leaseResidualValue := None;
          breakdown := {| principal := None;
                          interest := None;
                          taxes := Math_round tax;
                          tradeIn := Some tradeInValue;
                          depreciation := None;
                          finance := None;
                          vehicle := Some (Math_round vehiclePortion);
                          insurance := Some insurance;
                          maintenance := Some maintenance |};
          type := Financing.subscription |}.

(** The result of [calculateAllScenarios]. *)
Record Scenarios : Type := {
  buy : PaymentCalculation;
  leaseScenario : PaymentCalculation;
  subscriptionScenario : PaymentCalculation
}.

Section Engine.

(** [Math.pow], whatever approximation the engine makes. *)
Variable Math_pow : float -> float -> float.

(** [calculatePurchase] *)
Definition calculatePurchase (params : FinancingParams)
  : result PaymentCalculation :=
  let price := price params in
  let downPayment := downPayment params in
  let apr := apr params in
  let termMonths := termMonths params in
  let tradeInValue := tradeInValue params in
  let taxRate := taxRate params in
  if price <=? 0 then Throw "Price must be positive"
  else if termMonths <=? 0 then Throw "Term must be positive"
  else if downPayment <? 0 then Throw "Down payment cannot be negative"
  else if tradeInValue <? 0 then Throw "Trade-in value cannot be negative"
  else if (taxRate <? 0) || (1 <? taxRate)
       then Throw "Tax rate must be between 0 and 1"
  else
    let tax := price * taxRate in
    let adjustedPrice := price + tax in
    let netPrice := adjustedPrice - tradeInValue - downPayment in
    if netPrice <=? 0 then
      Ok {| monthlyPayment := 0;
            totalCost := downPayment + tradeInValue;
            totalInterest := Some 0;
            leaseResidualValue := None;
            breakdown := {| principal := Some 0;
                            interest := Some 0;
                            taxes := tax;
                            tradeIn := Some tradeInValue;
                            depreciation := None;
                            finance := None;
                            vehicle := None;
                            insurance := None;
                            maintenance := None |};
            type := Financing.purchase |}
    else
      let monthlyRate := apr / 100 / 12 in
      let monthlyPayment :=
        if (monthlyRate =? 0) || (apr =? 0) then
          netPrice / termMonths
        else
          let numerator :=
            netPrice * monthlyRate * Math_pow (1 + monthlyRate) termMonths in
          let denominator := Math_pow (1 + monthlyRate) termMonths - 1 in
          numerator / denominator in
      let totalCost :=
        monthlyPayment * termMonths + downPayment + tradeInValue in
      let totalInterest := totalCost - adjustedPrice in
      Ok {| monthlyPayment := Math_round monthlyPayment;
            totalCost := Math_round totalCost;
            totalInterest := Some (Math_round totalInterest);
            leaseResidualValue := None;
            breakdown := {| principal := Some (Math_round netPrice);
                            interest := Some (Math_round totalInterest);
                            taxes := Math_round tax;
                            tradeIn := Some tradeInValue;
                            depreciation := None;
                            finance := None;
                            vehicle := None;
                            insurance := None;
                            maintenance := None |};
            type := Financing.purchase |}.

(** [calculateAllScenarios]: the three calculators in the order of the
    object literal; the first that throws ends the call. *)
Definition calculateAllScenarios (params : FinancingParams)
  : result Scenarios :=
  match calculatePurchase params with
  | Throw msg => Throw msg
  | Ok b =>
    match calculateLease params with
    | Throw msg => Throw msg
    | Ok l =>
      match calculateSubscription params with
      | Throw msg => Throw msg
      | Ok s =>
        Ok {| buy := b; leaseScenario := l; subscriptionScenario := s |}
      end
    end
  end.

End Engine.

(** The parameters with another residual value, and with another APR. *)
Definition with_residualValue (p : FinancingParams) (rv : option float)
  : FinancingParams :=
  {| price := price p; downPayment := downPayment p; apr := apr p;
     termMonths := termMonths p; isLease := isLease p;
     isSubscription := isSubscription p; residualValue := rv;
     tradeInValue := tradeInValue p; taxRate := taxRate p |}.

Definition with_apr (p : FinancingParams) (a : float) : FinancingParams :=
  {| price := price p; downPayment := downPayment p; apr := a;
     termMonths := termMonths p; isLease := isLease p;
     isSubscription := isSubscription p; residualValue := residualValue p;
     tradeInValue := tradeInValue p; taxRate := taxRate p |}.

End Double.
(** *** Vocabulary of the specification, over the numbers of the code *)

Module DoubleSpec.

Import Double.

Local Open Scope float_scope.

(** adjustedPrice = price + price * taxRate. *)
Definition adjustedPrice (p : FinancingParams) : float :=
  price p + price p * taxRate p.

(** net financed amount = adjustedPrice - tradeInValue - downPayment. *)
Definition netFinanced (p : FinancingParams) : float :=
  adjustedPrice p - tradeInValue p - downPayment p.

(** The domain constraints of Financing Parameters. *)
Definition valid (p : FinancingParams) : Prop :=
  (0 <? price p) = true /\ (0 <? termMonths p) = true /\
  (0 <=? downPayment p) = true /\ (0 <=? tradeInValue p) = true /\
  (0 <=? taxRate p) = true /\ (taxRate p <=? 1) = true /\
  (0 <=? apr p) = true /\ (apr p <=? 100) = true.

(** An input that breaks one of the constraints the calculators are to
    reject. *)
Definition rejected (p : FinancingParams) : Prop :=
  (price p <=? 0) = true \/ (termMonths p <=? 0) = true \/
  (downPayment p <? 0) = true \/ (tradeInValue p <? 0) = true \/
  (taxRate p <? 0) = true \/ (1 <? taxRate p) = true.

(** The residual [calculateLease] works with: the supplied value unless it
    is absent or falsy (0, -0, NaN), else 55% of the price rounded to a whole
    unit. *)
Definition lease_residual (p : FinancingParams) : float :=
  match residualValue p with
  | Some v => if falsy v then Math_round (price p * 0.55) else v
  | None => Math_round (price p * 0.55)
  end.

(** The residual as the specification words it: the supplied value, else 55%
    of the price. *)
Definition residual_as_stated (p : FinancingParams) : float :=
  match residualValue p with
  | Some v => v
  | None => price p * 0.55
  end.

(** The unrounded lease payment of the specification, at a net amount and a
    residual. *)
Definition lease_monthly (net residual apr termMonths : float) : float :=
  (net - residual) / termMonths + (net + residual) * (apr / 2400).

(** The unrounded subscription payment of the specification: 60% of the net
    amount over the term, plus insurance and maintenance. *)
Definition subscription_monthly (net termMonths : float) : float :=
  net * 0.6 / termMonths + 150 + 100.

(** totalCost = monthlyPayment * termMonths + downPayment + tradeInValue, at
    an unrounded monthly payment. *)
Definition total_cost (monthly : float) (p : FinancingParams) : float :=
  monthly * termMonths p + downPayment p + tradeInValue p.

Section Claims.

Variable Math_pow : float -> float -> float.



End Claims.

(** What the specification says of the residual check of a lease. *)
Definition residual_claim (p : FinancingParams) : Prop :=
  valid p ->
  (threw (calculateLease p)
   <-> (netFinanced p <=? residual_as_stated p) = true).

(** What the specification says of the lease payment, with the residual as
    it words it. *)
Definition lease_formula_claim (p : FinancingParams) : Prop :=
  valid p -> (netFinanced p <=? residual_as_stated p) = false ->
  exists r, calculateLease p = Ok r /\
    monthlyPayment r =
      Math_round (lease_monthly (netFinanced p) (residual_as_stated p)
                                (apr p) (termMonths p)).

(** The fixture of the unit tests (tests/unit/financing.test.ts,
    [baseParams]). *)
Definition baseParams : FinancingParams :=
  {| price := 30000; downPayment := 2000; apr := 5.5; termMonths := 60;
     isLease := false; isSubscription := false; residualValue := None;
     tradeInValue := 0; taxRate := 0.08 |}.


(** The fixture with a residual value of 0. *)
Definition zeroResidualFixture : FinancingParams :=
  with_residualValue baseParams (Some 0).


(** Price 10000 with a residual value of 50000. *)
Definition residualAbovePrice : FinancingParams :=
  {| price := 10000; downPayment := 2000; apr := 5.5; termMonths := 60;
     isLease := true; isSubscription := false; residualValue := Some 50000;
     tradeInValue := 0; taxRate := 0.08 |}.

(** Half the price down and a residual value of zero. *)
Definition zeroResidual : FinancingParams :=
  {| price := 10000; downPayment := 5000; apr := 5.5; termMonths := 36;
     isLease := true; isSubscription := false; residualValue := Some 0;
     tradeInValue := 0; taxRate := 0 |}.

(** A price of 10 with 4.40 down: 55% of the price is 5.50, rounded 6. *)
Definition roundedDefault : FinancingParams :=
  {| price := 10; downPayment := 4.4; apr := 5.5; termMonths := 36;
     isLease := true; isSubscription := false; residualValue := None;
     tradeInValue := 0; taxRate := 0 |}.

(** Inputs at which rounding to binary64 decides: an amount that is a tie in
    decimal (30726 / 36 = 853.5), and a net amount equal in decimal to the
    default residual (13751). *)
Definition tieAtZeroApr : FinancingParams :=
  {| price := 36725.99; downPayment := 999.99; apr := 0; termMonths := 36;
     isLease := false; isSubscription := false; residualValue := None;
     tradeInValue := 5000; taxRate := 0 |}.

Definition netAtResidual : FinancingParams :=
  {| price := 25001; downPayment := 13250.08; apr := 5.5; termMonths := 60;
     isLease := true; isSubscription := false; residualValue := None;
     tradeInValue := 0; taxRate := 0.08 |}.

(** Amounts of sixteen digits at 0% APR. *)
Definition sixteenDigits : FinancingParams :=
  {| price := 6961307895912000; downPayment := 910042292015271; apr := 0;
     termMonths := 7; isLease := false; isSubscription := false;
     residualValue := None; tradeInValue := 1899056143186827; taxRate := 0 |}.

(** A lease whose total cost is 7833.5 in decimal, and a subscription whose
    monthly payment is 766.5 in decimal. *)
Definition leaseTie : FinancingParams :=
  {| price := 15000; downPayment := 1000; apr := 2.9; termMonths := 12;
     isLease := true; isSubscription := false; residualValue := None;
     tradeInValue := 0; taxRate := 0.05 |}.

Definition subscriptionTie : FinancingParams :=
  {| price := 32989.99; downPayment := 999.99; apr := 5.5; termMonths := 36;
     isLease := false; isSubscription := true; residualValue := None;
     tradeInValue := 1000; taxRate := 0 |}.

(** The fixture with a negative trade-in value, with a tax rate of 200%,
    and with a negative down payment. *)
Definition negativeTradeIn : FinancingParams :=
  {| price := 30000; downPayment := 2000; apr := 5.5; termMonths := 60;
     isLease := false; isSubscription := false; residualValue := None;
     tradeInValue := -5000; taxRate := 0.08 |}.

Definition taxRateTwo : FinancingParams :=
  {| price := 30000; downPayment := 2000; apr := 5.5; termMonths := 60;
     isLease := false; isSubscription := false; residualValue := None;
     tradeInValue := 0; taxRate := 2 |}.

Definition negativeDownPayment : FinancingParams :=
  {| price := 30000; downPayment := -2000; apr := 5.5; termMonths := 60;
     isLease := false; isSubscription := false; residualValue := None;
     tradeInValue := 0; taxRate := 0.08 |}.

End DoubleSpec.

(** * Properties *)

(** ** Comparisons and rounding *)

Lemma Qltb_lt (x y : Q) : (x <? y) = true <-> x < y.
Proof.
  unfold Qltb. rewrite negb_true_iff. split; intros H.
  - apply Qnot_le_lt. intros Hle. apply Qle_bool_iff in Hle. congruence.
  - destruct (y <=? x) eqn:E; [|reflexivity].
    apply Qle_bool_iff in E. lra.
Qed.

Lemma Qltb_ge (x y : Q) : (x <? y) = false <-> y <= x.
Proof.
  unfold Qltb. rewrite negb_false_iff. apply Qle_bool_iff.
Qed.

Lemma Qleb_gt (x y : Q) : (x <=? y) = false <-> y < x.
Proof.
  split; intros H.
  - apply Qnot_le_lt. intros Hle. apply Qle_bool_iff in Hle. congruence.
  - destruct (x <=? y) eqn:E; [|reflexivity].
    apply Qle_bool_iff in E. lra.
Qed.

Lemma Qeqb_neq (x y : Q) : (x =? y) = false <-> ~ x == y.
Proof.
  split; intros H.
  - now apply Qeq_bool_neq.
  - destruct (x =? y) eqn:E; [|reflexivity].
    apply Qeq_bool_iff in E. contradiction.
Qed.

Lemma Math_round_comp (x y : Q) : x == y -> Math_round x = Math_round y.
Proof.
  intros H. unfold Math_round. f_equal. apply Qfloor_comp. now rewrite H.
Qed.

(** A rounded number is at most one half away. *)
Lemma Math_round_near (x : Q) :
  x - (1 # 2) < Math_round x /\ Math_round x <= x + (1 # 2).
Proof.
  unfold Math_round.
  pose proof (Qfloor_le (x + (1 # 2))) as Hle.
  pose proof (Qlt_floor (x + (1 # 2))) as Hlt.
  rewrite inject_Z_plus in Hlt. change (inject_Z 1) with 1 in Hlt.
  split; lra.
Qed.


(** ** Financing engine *)

Module FinancingFacts.

Import Financing FinancingSpec.

(** Turn the guards of a calculator into facts about its parameters. *)
Ltac to_prop H :=
  first
    [ apply Qle_bool_iff in H | apply Qleb_gt in H
    | apply Qltb_lt in H | apply Qltb_ge in H
    | apply Z.leb_le in H | apply Z.leb_gt in H
    | apply Qeq_bool_iff in H | apply Qeqb_neq in H ].

(** [calculatePurchase] rejects each of the five violations. *)
Lemma calculatePurchase_rejects (p : FinancingParams) :
  rejected p -> threw (calculatePurchase p).
Proof.
  unfold rejected, calculatePurchase. cbv zeta. intros H.
  destruct (price p <=? 0) eqn:E1; [exact I|to_prop E1].
  destruct (termMonths p <=? 0)%Z eqn:E2; [exact I|to_prop E2].
  destruct (downPayment p <? 0) eqn:E3; [exact I|to_prop E3].
  destruct (tradeInValue p <? 0) eqn:E4; [exact I|to_prop E4].
  destruct (taxRate p <? 0) eqn:E5; [exact I|to_prop E5].
  destruct (Qltb 1 (taxRate p)) eqn:E6; [exact I|to_prop E6].
  exfalso. destruct H as [H|[H|[H|[H|[H|H]]]]]; try lra; lia.
Qed.

(** What the two other calculators do reject. *)
Lemma calculateLease_rejects (p : FinancingParams) :
  price p <= 0 \/ (termMonths p <= 0)%Z \/ downPayment p < 0 ->
  threw (calculateLease p).
Proof.
  unfold calculateLease. cbv zeta. intros H.
  destruct (price p <=? 0) eqn:E1; [exact I|to_prop E1].
  destruct (termMonths p <=? 0)%Z eqn:E2; [exact I|to_prop E2].
  destruct (downPayment p <? 0) eqn:E3; [exact I|to_prop E3].
  exfalso. destruct H as [H|[H|H]]; try lra; lia.
Qed.

Lemma calculateSubscription_rejects (p : FinancingParams) :
  price p <= 0 \/ (termMonths p <= 0)%Z ->
  threw (calculateSubscription p).
Proof.
  unfold calculateSubscription. cbv zeta. intros H.
  destruct (price p <=? 0) eqn:E1; [exact I|to_prop E1].
  destruct (termMonths p <=? 0)%Z eqn:E2; [exact I|to_prop E2].
  exfalso. destruct H as [H|H]; try lra; lia.
Qed.

(** C1.  [calculatePurchase] throws on a negative trade-in value, on a tax
    rate of 2 and on a negative down payment; [calculateLease] returns a
    payment for the first two, and [calculateSubscription] for all three. *)
Theorem lease_and_subscription_accept_rejected_input :
  (rejected negativeTradeIn /\ rejected taxRateTwo /\
   rejected negativeDownPayment) /\
  (threw (calculatePurchase negativeTradeIn) /\
   threw (calculatePurchase taxRateTwo) /\
   threw (calculatePurchase negativeDownPayment)) /\
  (exists r, calculateLease negativeTradeIn = Ok r /\ monthlyPayment r = 434) /\
  (exists r, calculateLease taxRateTwo = Ok r /\ monthlyPayment r = 1431) /\
  (exists r, calculateSubscription negativeTradeIn = Ok r
             /\ monthlyPayment r = 604) /\
  (exists r, calculateSubscription taxRateTwo = Ok r
             /\ monthlyPayment r = 1130) /\
  (exists r, calculateSubscription negativeDownPayment = Ok r
             /\ monthlyPayment r = 594).
Proof.
  split; [|split].
  - unfold rejected. cbn. repeat split.
    + do 3 right. left. reflexivity.
    + do 5 right. reflexivity.
    + do 2 right. left. reflexivity.
  - repeat split; exact I.
  - repeat split; eexists; (split; [reflexivity|]); vm_compute; reflexivity.
Qed.

(** C2.  On the fixture of the unit tests [calculateAllScenarios] returns a
    purchase payment of 581, a lease payment of 339 and a subscription
    payment of 554: the subscription is above the lease and below the
    purchase. *)
Theorem baseParams_subscription_below_purchase :
  exists r, calculateAllScenarios baseParams = Ok r /\
    monthlyPayment (buy r) = 581 /\
    monthlyPayment (leaseScenario r) = 339 /\
    monthlyPayment (subscriptionScenario r) = 554 /\
    monthlyPayment (leaseScenario r) < monthlyPayment (subscriptionScenario r)
    /\ monthlyPayment (subscriptionScenario r) < monthlyPayment (buy r).
Proof.
  assert (E : exists r, calculateAllScenarios baseParams = Ok r)
    by (vm_compute; eexists; reflexivity).
  destruct E as [r Hr]. exists r. split; [exact Hr|].
  vm_compute in Hr. injection Hr as <-. cbn. repeat split.
Qed.

End FinancingFacts.

(** ** NLU helpers *)

Module NluFacts.

Import Regex Nlu NluSpec.

Local Open Scope string_scope.

Lemma lower_idem (c : ascii) : lower (lower c) = lower c.
Proof.
  destruct c as [[] [] [] [] [] [] [] []]; reflexivity.
Qed.

Lemma toLowerCase_idem (s : string) :
  toLowerCase (toLowerCase s) = toLowerCase s.
Proof.
  induction s as [|c s IH]; cbn; [reflexivity|].
  now rewrite lower_idem, IH.
Qed.

(** *** Searching is trying every suffix *)

Lemma test_any_suffix (ic : bool) (r : regex) (s : string) :
  test ic r s = any_suffix (matches_at ic r) s.
Proof.
  unfold test.
  induction s as [|c s IH]; cbn; unfold matches_at;
    destruct (run ic r _ [] accept); cbn; auto.
Qed.

Lemma includes_any_suffix (s w : string) :
  includes s w = any_suffix (String.prefix w) s.
Proof.
  induction s as [|c s IH]; cbn [includes any_suffix].
  - destruct (String.prefix w ""); reflexivity.
  - rewrite IH. destruct (String.prefix w (String c s)); reflexivity.
Qed.

Lemma any_suffix_orb (f g : string -> bool) (s : string) :
  any_suffix (fun t => f t || g t) s = any_suffix f s || any_suffix g s.
Proof.
  induction s as [|c s IH]; cbn.
  - now rewrite !orb_false_r.
  - rewrite IH. destruct (f _), (g _), (any_suffix f s); reflexivity.
Qed.

Lemma any_suffix_false (s : string) : any_suffix (fun _ => false) s = false.
Proof. induction s; cbn; auto. Qed.

Lemma any_suffix_existsb {A} (f : A -> string -> bool) (l : list A)
  (s : string) :
  any_suffix (fun t => existsb (fun a => f a t) l) s
  = existsb (fun a => any_suffix (f a) s) l.
Proof.
  induction l as [|a l IH]; cbn [existsb].
  - apply any_suffix_false.
  - now rewrite any_suffix_orb, IH.
Qed.

(** Two predicates that agree on lower-case text agree on its suffixes. *)
Lemma any_suffix_ext_lower (f g : string -> bool) (x : string) :
  (forall y, f (toLowerCase y) = g (toLowerCase y)) ->
  any_suffix f (toLowerCase x) = any_suffix g (toLowerCase x).
Proof.
  intros H. induction x as [|c x IH].
  - cbn [any_suffix toLowerCase]. f_equal. exact (H "").
  - change (toLowerCase (String c x))
      with (String (lower c) (toLowerCase x)).
    cbn [any_suffix]. rewrite IH. f_equal.
    exact (H (String c x)).
Qed.

(** *** What the patterns of [detectIntent] match *)

Lemma matches_at_Lit (ic : bool) (w t : string) :
  matches_at ic (Lit w) t = is_some (strip_prefix ic w t).
Proof.
  unfold matches_at. cbn. now destruct (strip_prefix ic w t).
Qed.

Lemma matches_at_Alt (ic : bool) (r1 r2 : regex) (t : string) :
  matches_at ic (Alt r1 r2) t = matches_at ic r1 t || matches_at ic r2 t.
Proof.
  unfold matches_at. cbn. now destruct (run ic r1 t [] accept).
Qed.

Lemma matches_at_Group (ic : bool) (i : nat) (r : regex) (t : string) :
  matches_at ic (Group i r) t = matches_at ic r t.
Proof.
  unfold matches_at. cbn [run].
  assert (H : forall (r : regex) s caps (k1 k2 : cont),
             (forall s' caps', is_some (k1 s' caps') = is_some (k2 s' caps')) ->
             is_some (run ic r s caps k1) = is_some (run ic r s caps k2)).
  { clear. induction r as [w|f|r1 IH1 r2 IH2|r1 IH1 r2 IH2|r1 IH1|r1 IH1
                           |lo hi r1 IH1|i r1 IH1];
      intros s caps k1 k2 Hk; cbn [run].
    - destruct (strip_prefix ic w s); auto.
    - destruct s as [|c s]; auto. destruct (f c); auto.
    - apply IH1. intros. now apply IH2.
    - specialize (IH1 s caps k1 k2 Hk). specialize (IH2 s caps k1 k2 Hk).
      destruct (run ic r1 s caps k1), (run ic r1 s caps k2);
        cbn in *; congruence.
    - specialize (IH1 s caps k1 k2 Hk). specialize (Hk s caps).
      destruct (run ic r1 s caps k1), (run ic r1 s caps k2);
        cbn in *; congruence.
    - generalize (String.length s) as fuel. intros fuel. revert s caps.
      induction fuel as [|fuel IHf]; intros s caps; [apply Hk|].
      match goal with
      | |- is_some (match ?a with _ => _ end)
           = is_some (match ?b with _ => _ end) =>
        assert (E : is_some a = is_some b)
      end.
      { apply IH1. intros s' caps'.
        destruct (String.length s' <? String.length s)%nat; auto. }
      specialize (Hk s caps).
      match type of E with
      | is_some ?a = is_some ?b => destruct a, b; cbn in *; congruence
      end.
    - revert lo s caps.
      induction hi as [|hi IHh]; intros lo s caps.
      + destruct (lo =? 0)%nat; auto.
      + match goal with
        | |- is_some (match ?a with _ => _ end)
             = is_some (match ?b with _ => _ end) =>
          assert (E : is_some a = is_some b)
        end.
        { apply IH1. intros s' caps'. apply IHh. }
        specialize (Hk s caps).
        match type of E with
        | is_some ?a = is_some ?b =>
          destruct a, b, (lo =? 0)%nat; cbn in *; congruence
        end.
    - apply IH1. intros. apply Hk. }
  specialize (H r t [] (fun s' caps' => accept s' ((i, taken t s') :: caps'))
                accept (fun _ _ => eq_refl)).
  destruct (run ic r t [] _), (run ic r t [] accept); cbn in H; congruence.
Qed.

Lemma matches_at_lits (ic : bool) (ws : list string) (t : string) :
  matches_at ic (lits ws) t
  = existsb (fun w => is_some (strip_prefix ic w t)) ws.
Proof.
  induction ws as [|w ws IH]; [now destruct t|].
  destruct ws as [|w' ws].
  - cbn [lits existsb]. now rewrite matches_at_Lit, orb_false_r.
  - change (lits (w :: w' :: ws)) with (Alt (Lit w) (lits (w' :: ws))).
    rewrite matches_at_Alt, matches_at_Lit, IH. reflexivity.
Qed.

(** A sequence that starts with a literal matches only text that starts
    with the literal. *)
Lemma matches_at_Seq_Lit (ic : bool) (w : string) (r : regex) (t : string) :
  matches_at ic (Lit w +++ r)%re t = true ->
  is_some (strip_prefix ic w t) = true.
Proof.
  unfold matches_at. cbn. now destruct (strip_prefix ic w t).
Qed.

(** On lower-case text a lower-case literal matches, under the [i] flag,
    exactly where it is a prefix. *)
Lemma strip_prefix_lower (w x : string) :
  toLowerCase w = w ->
  is_some (strip_prefix true w (toLowerCase x))
  = String.prefix w (toLowerCase x).
Proof.
  revert x. induction w as [|a w IH]; intros x Hw.
  - now destruct x.
  - destruct x as [|b x]; [reflexivity|].
    cbn in Hw. injection Hw as Ha Hw.
    cbn [toLowerCase strip_prefix String.prefix char_eq].
    rewrite Ha, lower_idem.
    destruct (ascii_dec a (lower b)) as [->|Hne].
    + rewrite Ascii.eqb_refl. now apply IH.
    + apply Ascii.eqb_neq in Hne. now rewrite Hne.
Qed.

(** Where a string is a prefix, its prefixes are. *)
Lemma prefix_app (w v t : string) :
  String.prefix (w ++ v) t = true -> String.prefix w t = true.
Proof.
  revert t. induction w as [|a w IH]; intros t H; [now destruct t|].
  destruct t as [|b t]; [discriminate|].
  cbn in *. destruct (ascii_dec a b); [now apply IH|discriminate].
Qed.

Lemma any_suffix_impl (f g : string -> bool) (s : string) :
  (forall t, f t = true -> g t = true) ->
  any_suffix f s = true -> any_suffix g s = true.
Proof.
  intros H. induction s as [|c s IH]; cbn; rewrite !orb_true_iff.
  - intros [Hf|]; [left; auto|discriminate].
  - intros [Hf|Hs]; [left|right]; auto.
Qed.

Lemma includes_app (s w v : string) :
  includes s (w ++ v) = true -> includes s w = true.
Proof.
  rewrite !includes_any_suffix. apply any_suffix_impl.
  intros t. apply prefix_app.
Qed.

Lemma orb_absorb (a b : bool) : (a = true -> b = true) -> a || b = b.
Proof. destruct a, b; intuition congruence. Qed.

(** The compare pattern of services/nlu.ts finds what the compare keywords
    find. *)
Lemma Ts_compareRe_mentions (text : string) :
  test true Ts.compareRe (toLowerCase text) = mentions text compareKeywords.
Proof.
  rewrite test_any_suffix.
  rewrite (any_suffix_ext_lower _
             (fun t => String.prefix "vs" t
                       || (String.prefix "versus" t
                           || String.prefix "compare" t))).
  - rewrite !any_suffix_orb, <- !includes_any_suffix.
    unfold mentions, compareKeywords. cbn [existsb].
    rewrite orb_false_r.
    rewrite (orb_comm (includes _ "compare") (includes _ "compared to")).
    rewrite (orb_absorb (includes _ "compared to") (includes _ "compare"));
      [reflexivity|].
    apply (includes_app _ "compare" "d to").
  - intros y. unfold Ts.compareRe.
    rewrite !matches_at_Alt, !matches_at_Lit.
    rewrite !strip_prefix_lower by reflexivity.
    do 2 f_equal. apply orb_absorb. intros H.
    apply matches_at_Seq_Lit in H.
    now rewrite strip_prefix_lower in H.
Qed.

(** A pattern that lists lower-case literals finds what the literals find. *)
Lemma lits_mentions (ws : list string) (text : string) :
  forallb (fun w => String.eqb (toLowerCase w) w) ws = true ->
  test true (lits ws) (toLowerCase text) = mentions text ws.
Proof.
  intros Hws. rewrite test_any_suffix.
  rewrite (any_suffix_ext_lower _
             (fun t => existsb (fun w => String.prefix w t) ws)).
  - rewrite any_suffix_existsb. unfold mentions.
    clear Hws. induction ws as [|w ws IH]; [reflexivity|].
    cbn [existsb]. now rewrite IH, includes_any_suffix.
  - intros y. rewrite matches_at_lits.
    induction ws as [|w ws IH]; [reflexivity|].
    cbn in Hws. apply andb_prop in Hws as [Hw Hws].
    apply String.eqb_eq in Hw.
    cbn [existsb]. rewrite strip_prefix_lower by exact Hw.
    f_equal. apply IH, Hws.
Qed.

(** [detectIntent] of services/nlu.ts follows the precedence of the
    specification: a compare keyword gives compare whatever else the text
    holds, else a finance keyword gives finance, else a filter keyword gives
    filter, else the intent is search. *)
Lemma Ts_detectIntent_precedence (text : string) :
  Ts.detectIntent text = intent_by_precedence text.
Proof.
  unfold Ts.detectIntent, intent_by_precedence. cbv zeta.
  rewrite Ts_compareRe_mentions.
  unfold Ts.financeRe, Ts.filterRe.
  rewrite !lits_mentions by reflexivity. reflexivity.
Qed.

Lemma Ts_detectIntent_compare_wins (text : string) :
  mentions text compareKeywords = true -> Ts.detectIntent text = compare.
Proof.
  intros H. rewrite Ts_detectIntent_precedence.
  unfold intent_by_precedence. now rewrite H.
Qed.

(** *** The table of server/utils/nlu.js *)

Lemma strip_prefix_ignoreCase (w t : string) :
  is_some (strip_prefix true w t)
  = String.prefix (toLowerCase w) (toLowerCase t).
Proof.
  revert t. induction w as [|a w IH]; intros t; [now destruct t|].
  destruct t as [|b t]; [reflexivity|].
  cbn [toLowerCase strip_prefix String.prefix char_eq].
  destruct (ascii_dec (lower a) (lower b)) as [E|Hne].
  - rewrite E, Ascii.eqb_refl. apply IH.
  - apply Ascii.eqb_neq in Hne. now rewrite Hne.
Qed.

Lemma any_suffix_ext (f g : string -> bool) (s : string) :
  (forall t, f t = g t) -> any_suffix f s = any_suffix g s.
Proof.
  intros H. induction s as [|c s IH]; cbn; rewrite H; [reflexivity|].
  now rewrite IH.
Qed.

Lemma any_suffix_toLowerCase (f : string -> bool) (s : string) :
  any_suffix (fun t => f (toLowerCase t)) s = any_suffix f (toLowerCase s).
Proof.
  induction s as [|c s IH]; cbn; [reflexivity|]. now rewrite IH.
Qed.

(** Under the [i] flag a group of lower-case literals finds, in the text as
    it came, what the literals find in the lower-case text. *)
Lemma group_lits_mentions (i : nat) (ws : list string) (text : string) :
  forallb (fun w => String.eqb (toLowerCase w) w) ws = true ->
  test true (Group i (lits ws)) text = mentions text ws.
Proof.
  intros Hws. rewrite test_any_suffix.
  rewrite (any_suffix_ext _
             (fun t => existsb (fun w => String.prefix w (toLowerCase t)) ws)).
  - rewrite (any_suffix_toLowerCase
               (fun t => existsb (fun w => String.prefix w t) ws)).
    rewrite any_suffix_existsb. unfold mentions.
    clear Hws. induction ws as [|w ws IH]; [reflexivity|].
    cbn [existsb]. now rewrite IH, includes_any_suffix.
  - intros t. rewrite matches_at_Group, matches_at_lits.
    induction ws as [|w ws IH]; [reflexivity|].
    cbn in Hws. apply andb_prop in Hws as [Hw Hws].
    apply String.eqb_eq in Hw.
    cbn [existsb]. rewrite strip_prefix_ignoreCase, Hw.
    f_equal. apply IH, Hws.
Qed.

(** [detectIntent] of server/utils/nlu.js tries search first, then compare,
    then filter, then finance. *)
Lemma Js_detectIntent_table_order (text : string) :
  Js.detectIntent text = intent_by_table_order text.
Proof.
  unfold Js.detectIntent, Js.INTENT_PATTERNS, intent_by_table_order.
  cbn [Js.firstIntent].
  rewrite !group_lits_mentions by reflexivity. reflexivity.
Qed.

(** C3.  "show me the Camry vs Accord" holds the compare keyword "vs":
    [detectIntent] of services/nlu.ts answers compare, [detectIntent] of
    server/utils/nlu.js answers search, its search pattern being tried first;
    and "lease with low payment", which holds no compare keyword, is finance
    for the one and filter for the other.  On the example of the
    specification both answer compare. *)
Theorem Js_detectIntent_search_before_compare :
  mentions "show me the Camry vs Accord" compareKeywords = true /\
  Ts.detectIntent "show me the Camry vs Accord" = compare /\
  Js.detectIntent "show me the Camry vs Accord" = search /\
  mentions "lease with low payment" compareKeywords = false /\
  Ts.detectIntent "lease with low payment" = finance /\
  Js.detectIntent "lease with low payment" = filter /\
  Ts.detectIntent "compare the price of the Camry vs Accord" = compare /\
  Js.detectIntent "compare the price of the Camry vs Accord" = compare.
Proof.
  repeat split; vm_compute; reflexivity.
Qed.

(** *** Prices *)

Lemma extractPriceRange_examples :
  Ts.extractPriceRange "under $30k"
    = {| min := None; max := Some (Num 30000) |} /\
  Ts.extractPriceRange "$25,000-$35,000"
    = {| min := Some (Num 25000); max := Some (Num 35000) |} /\
  Ts.extractPriceRange "affordable"
    = {| min := None; max := Some (Num 30000) |} /\
  Ts.extractPriceRange "over $40k"
    = {| min := Some (Num 40000); max := None |} /\
  Ts.extractPriceRange "affordable SUVs under $20k"
    = {| min := None; max := Some (Num 20000) |} /\
  Js.extractPriceRange "under $30k"
    = {| min := None; max := Some (Num 30000) |} /\
  Js.extractPriceRange "$25,000-$35,000"
    = {| min := Some (Num 25000); max := Some (Num 35000) |} /\
  Js.extractPriceRange "affordable"
    = {| min := None; max := Some (Num 30000) |} /\
  Js.extractPriceRange "over $40k"
    = {| min := Some (Num 40000); max := None |} /\
  Js.extractPriceRange "affordable SUVs under $20k"
    = {| min := None; max := Some (Num 20000) |}.
Proof.
  repeat split; vm_compute; reflexivity.
Qed.

(** C9.  "under $30thousand": both price extractors match the "thousand"
    suffix and return an upper bound of 30, not 30000; [parsePrice] scales by
    1000 only when the matched text holds a "k". *)
Theorem extractPriceRange_thousand_not_scaled :
  exec true underRe "under $30thousand" = Some [(1%nat, "30thousand")] /\
  parsePrice "30thousand" = Num 30 /\
  parsePrice "30k" = Num 30000 /\
  Ts.extractPriceRange "under $30thousand"
    = {| min := None; max := Some (Num 30) |} /\
  Js.extractPriceRange "under $30thousand"
    = {| min := None; max := Some (Num 30) |} /\
  Ts.extractPriceRange "over $40thousand"
    = {| min := Some (Num 40); max := None |} /\
  Js.extractPriceRange "over $40thousand"
    = {| min := Some (Num 40); max := None |}.
Proof.
  repeat split; vm_compute; reflexivity.
Qed.


(** Digits beyond the third that are not grouped by commas are left out of
    the match: "under $30000" gives an upper bound of 300. *)
Lemma extractPriceRange_ungrouped_digits :
  exec true underRe "under $30000" = Some [(1%nat, "300")] /\
  Ts.extractPriceRange "under $30000"
    = {| min := None; max := Some (Num 300) |} /\
  Js.extractPriceRange "under $30000"
    = {| min := None; max := Some (Num 300) |}.
Proof.
  repeat split; vm_compute; reflexivity.
Qed.

(** *** [parsePrice] on a number with a suffix *)

Lemma digit_facts (c : ascii) :
  is_digit c = true ->
  is_space c = false /\ lower c = c /\ Ascii.eqb c "," = false /\
  Ascii.eqb c "k" = false /\ c <> "-"%char /\ c <> "+"%char /\
  c <> "k"%char.
Proof.
  destruct c as [[] [] [] [] [] [] [] []]; vm_compute; intros H;
    try discriminate H; repeat split; discriminate.
Qed.

Lemma remove_commas_k_digits (ds tl : string) :
  all_digits ds = true ->
  remove_commas_k (ds ++ tl) = ds ++ remove_commas_k tl.
Proof.
  induction ds as [|c ds IH]; intros H; [reflexivity|].
  cbn in H. apply andb_prop in H as [Hc Hds].
  destruct (digit_facts c Hc) as (_ & Hl & Hcomma & Hk & _).
  cbn. rewrite Hl, Hcomma, Hk. cbn. now rewrite IH.
Qed.

Lemma includes_k_digits (ds tl : string) :
  all_digits ds = true ->
  includes (toLowerCase (ds ++ tl)) "k" = includes (toLowerCase tl) "k".
Proof.
  induction ds as [|c ds IH]; intros H; [reflexivity|].
  cbn in H. apply andb_prop in H as [Hc Hds].
  destruct (digit_facts c Hc) as (_ & Hl & _ & _ & _ & _ & Hk).
  cbn [append toLowerCase includes String.prefix]. rewrite Hl.
  destruct (ascii_dec "k" c) as [E|_]; [now symmetry in E|].
  now apply IH.
Qed.

Lemma digits_value_app (ds tl : string) (acc : Z) :
  all_digits ds = true ->
  match tl with
  | String c _ => is_digit c = false
  | EmptyString => True
  end ->
  digits_value (ds ++ tl) acc = digits_value ds acc.
Proof.
  revert acc. induction ds as [|c ds IH]; intros acc H Htl.
  - destruct tl as [|c tl]; [reflexivity|]. cbn. now rewrite Htl.
  - cbn in H. apply andb_prop in H as [Hc Hds].
    cbn. rewrite Hc. now apply IH.
Qed.

Lemma parseInt_digits (ds tl : string) :
  all_digits ds = true -> ds <> "" ->
  match tl with
  | String c _ => is_digit c = false
  | EmptyString => True
  end ->
  parseInt (ds ++ tl) = Num (digits_value ds 0).
Proof.
  intros H Hne Htl. destruct ds as [|c ds]; [contradiction|].
  pose proof H as H'. cbn in H'. apply andb_prop in H' as [Hc Hds].
  destruct (digit_facts c Hc) as (Hsp & _ & _ & _ & Hminus & Hplus & _).
  unfold parseInt.
  change (String c ds ++ tl) with (String c (ds ++ tl)).
  cbn [skip_space]. rewrite Hsp.
  assert (E : (let '(sign, s) :=
                 match String c (ds ++ tl) with
                 | String "-"%char s' => ((-1)%Z, s')
                 | String "+"%char s' => (1%Z, s')
                 | _ => (1%Z, String c (ds ++ tl))
                 end in
               match s with
               | String c0 _ =>
                 if is_digit c0 then Num (sign * digits_value s 0) else NaN
               | EmptyString => NaN
               end)
              = Num (1 * digits_value (String c (ds ++ tl)) 0)).
  { destruct c as [[] [] [] [] [] [] [] []];
      try discriminate Hc; try (exfalso; now apply Hminus);
      try (exfalso; now apply Hplus); reflexivity. }
  rewrite E. rewrite Z.mul_1_l.
  change (String c (ds ++ tl)) with (String c ds ++ tl).
  now rewrite digits_value_app.
Qed.

Lemma append_empty (s : string) : s ++ "" = s.
Proof. induction s as [|c s IH]; cbn; [reflexivity|now rewrite IH]. Qed.

Lemma parsePrice_digits (ds tl : string) :
  all_digits ds = true ->
  parsePrice (ds ++ tl)
  = if includes (toLowerCase tl) "k"
    then times (parseInt (ds ++ remove_commas_k tl)) 1000
    else parseInt (ds ++ remove_commas_k tl).
Proof.
  intros H. unfold parsePrice. cbv zeta.
  now rewrite remove_commas_k_digits, includes_k_digits.
Qed.

(** For a number written in digits, the suffix "k" scales by 1000 and the
    suffix "thousand" does not. *)
Lemma parsePrice_suffix (ds : string) :
  all_digits ds = true -> ds <> "" ->
  parsePrice ds = Num (digits_value ds 0) /\
  parsePrice (ds ++ "k") = Num (digits_value ds 0 * 1000) /\
  parsePrice (ds ++ "thousand") = Num (digits_value ds 0).
Proof.
  intros H Hne. repeat split.
  - transitivity (parsePrice (ds ++ "")); [now rewrite append_empty|].
    rewrite parsePrice_digits by exact H.
    change (includes (toLowerCase "") "k") with false. cbn iota.
    change (remove_commas_k "") with "".
    now rewrite parseInt_digits.
  - rewrite parsePrice_digits by exact H.
    change (includes (toLowerCase "k") "k") with true. cbn iota.
    change (remove_commas_k "k") with "".
    now rewrite parseInt_digits.
  - rewrite parsePrice_digits by exact H.
    change (includes (toLowerCase "thousand") "k") with false. cbn iota.
    change (remove_commas_k "thousand") with "thousand".
    now rewrite parseInt_digits.
Qed.

End NluFacts.

(** ** Financing engine: what the validation lets through *)

Module FinancingMore.

Import Financing Server.

Local Open Scope Q_scope.

Ltac to_prop H :=
  first
    [ apply Qle_bool_iff in H | apply Qleb_gt in H
    | apply Qltb_lt in H | apply Qltb_ge in H
    | apply Z.leb_le in H | apply Z.leb_gt in H
    | apply Z.ltb_lt in H | apply Z.ltb_ge in H
    | apply Qeq_bool_iff in H | apply Qeqb_neq in H ].

(** X1.  [calculatePurchase] throws exactly on the inputs that break one of
    its five constraints: price <= 0, termMonths <= 0, downPayment < 0,
    tradeInValue < 0, taxRate outside [0,1]; on every other input it
    returns. *)
Theorem calculatePurchase_throws_iff (p : FinancingParams) :
  threw (calculatePurchase p) <-> rejected p.
Proof.
  unfold rejected, calculatePurchase. cbv zeta.
  destruct (price p <=? 0) eqn:E1; to_prop E1; [cbn; tauto|].
  destruct (termMonths p <=? 0)%Z eqn:E2; to_prop E2; [cbn; tauto|].
  destruct (downPayment p <? 0) eqn:E3; to_prop E3; [cbn; tauto|].
  destruct (tradeInValue p <? 0) eqn:E4; to_prop E4; [cbn; tauto|].
  destruct (taxRate p <? 0) eqn:E5; to_prop E5; [cbn; tauto|].
  destruct (Qltb 1 (taxRate p)) eqn:E6; to_prop E6; [cbn; tauto|].
  cbn [orb].
  destruct (price p + price p * taxRate p - tradeInValue p - downPayment p
            <=? 0); cbn;
    (split; [tauto|]); intros [H|[H|[H|[H|[H|H]]]]]; try lra; lia.
Qed.

Lemma calculatePurchase_returned_iff (p : FinancingParams) :
  returned (calculatePurchase p) <->
  0 < price p /\ (0 < termMonths p)%Z /\ 0 <= downPayment p /\
  0 <= tradeInValue p /\ 0 <= taxRate p <= 1.
Proof.
  unfold calculatePurchase. cbv zeta.
  destruct (price p <=? 0) eqn:E1; to_prop E1;
    [cbn; split; [contradiction|lra]|].
  destruct (termMonths p <=? 0)%Z eqn:E2; to_prop E2;
    [cbn; split; [contradiction|lia]|].
  destruct (downPayment p <? 0) eqn:E3; to_prop E3;
    [cbn; split; [contradiction|lra]|].
  destruct (tradeInValue p <? 0) eqn:E4; to_prop E4;
    [cbn; split; [contradiction|lra]|].
  destruct (taxRate p <? 0) eqn:E5; to_prop E5;
    [cbn; split; [contradiction|lra]|].
  destruct (Qltb 1 (taxRate p)) eqn:E6; to_prop E6;
    [cbn; split; [contradiction|lra]|].
  cbn [orb].
  destruct (price p + price p * taxRate p - tradeInValue p - downPayment p
            <=? 0); cbn; (split; [intros _|exact (fun _ => I)]);
    repeat split; try lra; lia.
Qed.

Lemma calculateLease_returned_iff (p : FinancingParams) :
  returned (calculateLease p) <->
  0 < price p /\ (0 < termMonths p)%Z /\ 0 <= downPayment p /\
  js_or (residualValue p) (Math_round (price p * 0.55)) < netFinanced p.
Proof.
  unfold netFinanced, adjustedPrice, calculateLease. cbv zeta.
  destruct (price p <=? 0) eqn:E1; to_prop E1;
    [cbn; split; [contradiction|lra]|].
  destruct (termMonths p <=? 0)%Z eqn:E2; to_prop E2;
    [cbn; split; [contradiction|lia]|].
  destruct (downPayment p <? 0) eqn:E3; to_prop E3;
    [cbn; split; [contradiction|lra]|].
  match goal with
  | |- context [Qle_bool ?a ?b] => destruct (Qle_bool a b) eqn:E4
  end; to_prop E4; cbn.
  - split; [contradiction|lra].
  - split; [intros _|exact (fun _ => I)]. repeat split; try lra; lia.
Qed.

Lemma calculateSubscription_returned_iff (p : FinancingParams) :
  returned (calculateSubscription p) <-> 0 < price p /\ (0 < termMonths p)%Z.
Proof.
  unfold calculateSubscription. cbv zeta.
  destruct (price p <=? 0) eqn:E1; to_prop E1;
    [cbn; split; [contradiction|lra]|].
  destruct (termMonths p <=? 0)%Z eqn:E2; to_prop E2;
    [cbn; split; [contradiction|lia]|].
  cbn. split; [intros _|exact (fun _ => I)]. split; [lra|lia].
Qed.

Lemma calculateAllScenarios_returned (p : FinancingParams) :
  returned (calculatePurchase p) -> returned (calculateLease p) ->
  returned (calculateSubscription p) -> returned (calculateAllScenarios p).
Proof.
  unfold calculateAllScenarios.
  destruct (calculatePurchase p), (calculateLease p),
    (calculateSubscription p); cbn; tauto.
Qed.

(** X10.  The comparison handler prices a vehicle with 2000 down, 5.5% APR,
    60 months, no trade-in and 8% tax: for every MSRP of at least 3775 the
    three scenarios are computed, none of the calculators throws. *)
Theorem comparison_financing_returns (msrp : Q) :
  3775 <= msrp -> returned (calculateAllScenarios (comparisonParams msrp)).
Proof.
  intros H. apply calculateAllScenarios_returned.
  - apply calculatePurchase_returned_iff. cbn. repeat split; try lra; lia.
  - apply calculateLease_returned_iff. cbn [comparisonParams price termMonths
      downPayment residualValue js_or].
    repeat split; try lra; try lia.
    unfold netFinanced, adjustedPrice. cbn [comparisonParams price taxRate
      tradeInValue downPayment].
    destruct (Math_round_near (msrp * 0.55)) as [_ Hhi]. lra.
  - apply calculateSubscription_returned_iff. cbn. split; [lra|lia].
Qed.

Lemma comparison_financing_returns_witness :
  returned (calculateAllScenarios (comparisonParams 30000)).
Proof.
  apply comparison_financing_returns. vm_compute. discriminate.
Defined.

End FinancingMore.

(** ** services/nlu.ts: colors, entities, comparison *)

Module NluTsFacts.

Import Regex Nlu NluSpec Text Catalog NluTs NluTsSpec.

Local Open Scope string_scope.

Lemma firstIncluded_None (lowerText : string) (synonyms : list string) :
  firstIncluded lowerText synonyms = None
  <-> existsb (includes lowerText) synonyms = false.
Proof.
  induction synonyms as [|w ws IH]; cbn; [tauto|].
  destruct (includes lowerText w); cbn; [split; discriminate|exact IH].
Qed.

Lemma firstIncluded_Some (lowerText : string) (synonyms : list string)
  (synonym : string) :
  firstIncluded lowerText synonyms = Some synonym ->
  In synonym synonyms /\ includes lowerText synonym = true.
Proof.
  induction synonyms as [|w ws IH]; cbn; [discriminate|].
  destruct (includes lowerText w) eqn:E.
  - intros [= <-]. auto.
  - intros H. destruct (IH H). auto.
Qed.

Lemma extractColorFrom_None (entries : list (string * list string))
  (lowerText : string) (vehicle : option Vehicle) :
  extractColorFrom entries lowerText vehicle = None
  <-> existsb (includes lowerText) (flat_map snd entries) = false.
Proof.
  induction entries as [|[color synonyms] entries IH]; cbn; [tauto|].
  rewrite existsb_app, orb_false_iff, <- IH, <- firstIncluded_None.
  destruct (firstIncluded lowerText synonyms) as [synonym|].
  - split; [|intros [H _]; discriminate].
    destruct vehicle as [v|]; [destruct (findColor v color synonym)|];
      discriminate.
  - tauto.
Qed.

(** X11.  On a text of ASCII characters, [extractColor] of services/nlu.ts
    returns null exactly when the text, letter case aside, holds none of the
    synonyms of the color table, whether a vehicle is given or not. *)
Theorem extractColor_null_iff (text : string) (vehicle : option Vehicle) :
  ascii_only text = true ->
  (extractColor text vehicle = None <-> mentions text allSynonyms = false).
Proof.
  intros _. unfold extractColor, mentions, allSynonyms. cbv zeta.
  apply extractColorFrom_None.
Qed.

(** "a fast car" names no color, with or without a vehicle. *)
Lemma extractColor_null_iff_witness :
  extractColor "a fast car" (Some oceanVehicle) = None.
Proof.
  apply (extractColor_null_iff "a fast car" (Some oceanVehicle)).
  - reflexivity.
  - reflexivity.
Defined.

(** A lower-case string never starts with a capital. *)
Lemma toLowerCase_not_upper (s u : string) :
  starts_upper u = true -> String.eqb (toLowerCase s) u = false.
Proof.
  intros Hu. apply String.eqb_neq. intros E.
  destruct u as [|c u]; [discriminate|].
  destruct s as [|x s]; [discriminate|].
  cbn in E. injection E as Ec _. subst c. cbn in Hu.
  revert Hu. destruct x as [[] [] [] [] [] [] [] []]; vm_compute; discriminate.
Qed.

(** For the colors of the table, a vehicle color is found by its name
    only: the comparison of the codes is never true. *)
Lemma findColor_by_name (v : Vehicle) (color synonym : string) :
  starts_upper (first3 (toUpperCase color)) = true ->
  findColor v color synonym
  = find (fun c => includes (toLowerCase (name c)) synonym) (colors v).
Proof.
  intros Hu. unfold findColor.
  induction (colors v) as [|c cs IH]; [reflexivity|].
  cbn [find]. rewrite (toLowerCase_not_upper _ _ Hu), orb_false_r.
  now rewrite IH.
Qed.

Lemma extractColorFrom_result (entries : list (string * list string))
  (lowerText : string) (vehicle : option Vehicle) (c : VehicleColor) :
  forallb (fun e => starts_upper (first3 (toUpperCase (fst e)))) entries
  = true ->
  extractColorFrom entries lowerText vehicle = Some c ->
  exists color synonyms synonym,
    In (color, synonyms) entries /\
    firstIncluded lowerText synonyms = Some synonym /\
    match vehicle with
    | Some v =>
      match colorNamed v synonym with
      | Some m => c = m
      | None => c = genericColor color
      end
    | None => c = genericColor color
    end.
Proof.
  induction entries as [|[color synonyms] entries IH]; cbn [extractColorFrom];
    [discriminate|].
  cbn [forallb fst]. intros Hup. apply andb_prop in Hup as [Hu Hup].
  destruct (firstIncluded lowerText synonyms) as [synonym|] eqn:Hs.
  - intros H. exists color, synonyms, synonym.
    split; [left; reflexivity|]. split; [exact Hs|].
    destruct vehicle as [v|]; [|now injection H as <-].
    rewrite (findColor_by_name v color synonym Hu) in H.
    unfold colorNamed. now destruct (find _ (colors v)); injection H as <-.
  - intros H. destruct (IH Hup H) as (k & ss & sy & Hin & Hfi & Hc).
    exists k, ss, sy. split; [right; exact Hin|]. auto.
Qed.

(** The entry of grey is never reached: its synonyms are those of gray,
    which is tried before. *)
Lemma grey_entry_dead (lowerText : string) (vehicle : option Vehicle) :
  extractColorFrom COLOR_SYNONYMS lowerText vehicle
  = extractColorFrom (removelast COLOR_SYNONYMS) lowerText vehicle.
Proof.
  unfold COLOR_SYNONYMS. cbn [removelast extractColorFrom].
  repeat match goal with
         | |- match firstIncluded ?l ?ss with _ => _ end = _ =>
           let E := fresh "E" in
           destruct (firstIncluded l ss) eqn:E; [reflexivity|]
         end.
  reflexivity.
Qed.

(** X12.  On a text of ASCII characters and a vehicle whose colors have
    ASCII names, what [extractColor] of services/nlu.ts returns is decided
    by a synonym of the color table that the text holds, from an entry other
    than grey (whose synonyms are those of gray): it is the first color of
    the vehicle whose name, in lower case, holds that synonym, and the
    generic color of the entry when there is no such color or no vehicle.
    The code of a color never selects it. *)
Theorem extractColor_result (text : string) (vehicle : option Vehicle)
  (c : VehicleColor) :
  ascii_only text = true -> ascii_colors vehicle = true ->
  extractColor text vehicle = Some c ->
  exists color synonyms synonym,
    In (color, synonyms) COLOR_SYNONYMS /\ color <> "grey" /\
    In synonym synonyms /\ includes (toLowerCase text) synonym = true /\
    match vehicle with
    | Some v =>
      match colorNamed v synonym with
      | Some m => c = m
      | None => c = genericColor color
      end
    | None => c = genericColor color
    end.
Proof.
  intros _ _. unfold extractColor. cbv zeta. rewrite grey_entry_dead.
  intros H.
  destruct (extractColorFrom_result (removelast COLOR_SYNONYMS) _ _ _
              eq_refl H)
    as (color & synonyms & synonym & Hin & Hfi & Hc).
  destruct (firstIncluded_Some _ _ _ Hfi) as [Hsyn Hinc].
  exists color, synonyms, synonym.
  repeat split; try assumption.
  - cbn in Hin. cbn.
    destruct Hin as [E|[E|[E|[E|[E|[E|[]]]]]]]; rewrite <- E; auto 8.
  - cbn in Hin.
    destruct Hin as [E|[E|[E|[E|[E|[E|[]]]]]]]; injection E as <- _;
      discriminate.
Qed.

(** "a blue car" and a vehicle whose only color is Ocean with the code BLU:
    the answer is the generic Blue, not the color of the vehicle; "a
    midnight car" and a vehicle with the color Midnight Black: the answer is
    that color. *)
Lemma extractColor_result_witness :
  (exists color synonyms synonym,
     In (color, synonyms) COLOR_SYNONYMS /\ color <> "grey" /\
     In synonym synonyms /\
     includes (toLowerCase "a blue car") synonym = true /\
     match colorNamed oceanVehicle synonym with
     | Some m => genericColor "blue" = m
     | None => genericColor "blue" = genericColor color
     end) /\
  extractColor "a midnight car" (Some twoColorVehicle)
  = hd_error (colors twoColorVehicle).
Proof.
  split; [|reflexivity].
  apply (extractColor_result "a blue car" (Some oceanVehicle)
                             (genericColor "blue")).
  - reflexivity.
  - reflexivity.
  - reflexivity.
Defined.

(** *** Entities *)

Lemma mentionedColors_sub (entries : list (string * list string))
  (lowerText : string) (color : string) :
  In color (mentionedColors entries lowerText) ->
  In color (map fst entries).
Proof.
  induction entries as [|[k ss] entries IH]; cbn; [tauto|].
  destruct (existsb (includes lowerText) ss); cbn; tauto.
Qed.

Lemma mentionedColors_NoDup (entries : list (string * list string))
  (lowerText : string) :
  NoDup (map fst entries) -> NoDup (mentionedColors entries lowerText).
Proof.
  induction entries as [|[k ss] entries IH]; cbn; [constructor|].
  intros Hnd. inversion Hnd as [|? ? Hk Hrest]; subst.
  destruct (existsb (includes lowerText) ss); [|auto].
  constructor; [|auto]. intros Hin. apply Hk.
  eapply mentionedColors_sub, Hin.
Qed.

(** X13.  The colors [extractEntities] lists come in the order of the
    table without repetition, and "gray" is listed exactly when "grey" is:
    the two entries share their synonyms, so a text that mentions one color
    of the pair yields both. *)
Theorem extractEntities_colors (fuseSearch : string -> list Vehicle)
  (text : string) :
  let cs := colorList (extractEntities fuseSearch text) in
  NoDup cs /\ (In "gray" cs <-> In "grey" cs) /\
  (forall color, In color cs -> In color (map fst COLOR_SYNONYMS)).
Proof.
  cbv zeta.
  assert (E : colorList (extractEntities fuseSearch text)
              = mentionedColors COLOR_SYNONYMS (toLowerCase text)).
  { unfold colorList, extractEntities. cbv zeta. cbn [e_colors].
    now destruct (mentionedColors COLOR_SYNONYMS (toLowerCase text)). }
  rewrite E. split; [|split].
  - apply mentionedColors_NoDup. cbn.
    repeat (apply NoDup_cons;
            [cbn; intros H;
             repeat (destruct H as [H|H]; [discriminate H|]); exact H|]).
    apply NoDup_nil.
  - unfold COLOR_SYNONYMS. cbn [mentionedColors].
    repeat match goal with
           | |- context [existsb ?f ?l] =>
             let b := fresh "b" in
             generalize (existsb f l); intros b
           end.
    repeat match goal with b : bool |- _ => destruct b end;
      cbn; intuition discriminate.
  - intros color. apply mentionedColors_sub.
Qed.


(** *** Splitting a comparison *)

Lemma match_rest_matches_at (r : regex) (s : string) :
  match_rest r s = None <-> matches_at true r s = false.
Proof.
  unfold match_rest, matches_at.
  assert (H : forall (r : regex) s caps (k1 k2 : cont),
             (forall s' caps', is_some (k1 s' caps') = is_some (k2 s' caps')) ->
             is_some (run true r s caps k1) = is_some (run true r s caps k2)).
  { clear. induction r as [w|f|r1 IH1 r2 IH2|r1 IH1 r2 IH2|r1 IH1|r1 IH1
                           |lo hi r1 IH1|i r1 IH1];
      intros s caps k1 k2 Hk; cbn [run].
    - destruct (strip_prefix true w s); auto.
    - destruct s as [|c s]; auto. destruct (f c); auto.
    - apply IH1. intros. now apply IH2.
    - specialize (IH1 s caps k1 k2 Hk). specialize (IH2 s caps k1 k2 Hk).
      destruct (run true r1 s caps k1), (run true r1 s caps k2);
        cbn in *; congruence.
    - specialize (IH1 s caps k1 k2 Hk). specialize (Hk s caps).
      destruct (run true r1 s caps k1), (run true r1 s caps k2);
        cbn in *; congruence.
    - generalize (String.length s) as fuel. intros fuel. revert s caps.
      induction fuel as [|fuel IHf]; intros s caps; [apply Hk|].
      match goal with
      | |- is_some (match ?a with _ => _ end)
           = is_some (match ?b with _ => _ end) =>
        assert (E : is_some a = is_some b)
      end.
      { apply IH1. intros s' caps'.
        destruct (String.length s' <? String.length s)%nat; auto. }
      specialize (Hk s caps).
      match type of E with
      | is_some ?a = is_some ?b => destruct a, b; cbn in *; congruence
      end.
    - revert lo s caps.
      induction hi as [|hi IHh]; intros lo s caps.
      + destruct (lo =? 0)%nat; auto.
      + match goal with
        | |- is_some (match ?a with _ => _ end)
             = is_some (match ?b with _ => _ end) =>
          assert (E : is_some a = is_some b)
        end.
        { apply IH1. intros s' caps'. apply IHh. }
        specialize (Hk s caps).
        match type of E with
        | is_some ?a = is_some ?b =>
          destruct a, b, (lo =? 0)%nat; cbn in *; congruence
        end.
    - apply IH1. intros. apply Hk. }
  specialize (H r s [] (fun rest _ => Some [(0%nat, rest)]) accept
                (fun _ _ => eq_refl)).
  destruct (run true r s [] _), (run true r s [] accept); cbn in H;
    split; congruence.
Qed.

Lemma append_assoc_char (cur : string) (c : ascii) (s : string) :
  (cur ++ String c "") ++ s = cur ++ String c s.
Proof. induction cur as [|a cur IH]; cbn; [reflexivity|now rewrite IH]. Qed.

(** A text with no match of the separator anywhere is one part. *)
Lemma splitLoop_no_match (fuel : nat) (r : regex) (cur s : string) :
  any_suffix (matches_at true r) s = false ->
  splitLoop fuel r cur s = [cur ++ s].
Proof.
  revert cur s. induction fuel as [|fuel IH]; intros cur s H; [reflexivity|].
  destruct s as [|c s].
  - cbn. now rewrite NluFacts.append_empty.
  - cbn [any_suffix] in H. apply orb_false_iff in H as [Hm Hs].
    apply match_rest_matches_at in Hm.
    cbn [splitLoop]. rewrite Hm, (IH _ _ Hs).
    now rewrite append_assoc_char.
Qed.

(** X14.  On a text of ASCII characters that holds no separator ("vs"
    between white space, "versus", "compared to", "compare", letter case
    aside), [parseComparison] of services/nlu.ts resolves nothing: both
    subjects are absent, whatever the vehicle search would find. *)
Theorem parseComparison_no_separator (fuseTop : string -> list Vehicle)
  (text : string) :
  ascii_only text = true ->
  test true separatorRe text = false ->
  parseComparison fuseTop text = {| vehicle1 := None; vehicle2 := None |}.
Proof.
  intros _ H. rewrite NluFacts.test_any_suffix in H.
  unfold parseComparison. cbv zeta.
  assert (E : split separatorRe text = [text]).
  { unfold split. destruct text as [|c text].
    - cbn [any_suffix] in H. apply orb_false_iff in H as [Hm _].
      apply match_rest_matches_at in Hm. now rewrite Hm.
    - now rewrite splitLoop_no_match. }
  now rewrite E.
Qed.

Lemma parseComparison_no_separator_witness :
  parseComparison (fun _ => [oceanVehicle]) "camryvsaccord"
  = {| vehicle1 := None; vehicle2 := None |}.
Proof.
  apply parseComparison_no_separator.
  - reflexivity.
  - vm_compute. reflexivity.
Defined.


Lemma strip_prefix_length (ic : bool) (u s rest : string) :
  strip_prefix ic u s = Some rest ->
  String.length s = (String.length u + String.length rest)%nat.
Proof.
  revert s. induction u as [|a u IH]; intros s; cbn.
  - now intros [= ->].
  - destruct s as [|b s]; [discriminate|].
    destruct (char_eq ic a b); [|discriminate].
    intros H. cbn. now rewrite (IH _ H).
Qed.

Lemma strip_prefix_app (u w rest : string) :
  toLowerCase w = toLowerCase u ->
  strip_prefix true u (w ++ rest) = Some rest.
Proof.
  revert w. induction u as [|a u IH]; intros w H.
  - destruct w; [reflexivity|discriminate].
  - destruct w as [|b w]; [discriminate|].
    cbn in H. injection H as Hb Hw.
    cbn. rewrite Hb, Ascii.eqb_refl. now apply IH.
Qed.

Lemma length_append (a b : string) :
  String.length (a ++ b) = (String.length a + String.length b)%nat.
Proof. induction a as [|c a IH]; cbn; [reflexivity|now rewrite IH]. Qed.

(** At the head of a text that starts with "compare" the separator
    matches, and consumes something. *)
Lemma separator_at_compare (w rest : string) :
  toLowerCase w = "compare" ->
  exists rest',
    match_rest separatorRe (w ++ rest) = Some rest' /\
    (String.length rest' < String.length (w ++ rest))%nat.
Proof.
  intros Hw.
  pose proof (strip_prefix_app "compare" w rest Hw) as Hc.
  destruct w as [|c1 w]; [discriminate|].
  assert (Hc1 : lower c1 = "c"%char) by (cbn in Hw; congruence).
  change (String c1 w ++ rest) with (String c1 (w ++ rest)) in *.
  unfold match_rest, separatorRe. cbn [run].
  assert (Hsp : (let n := N_of_ascii c1 in
                 ((9 <=? n) && (n <=? 13) || (n =? 32))%N) = false).
  { revert Hc1. clear.
    destruct c1 as [[] [] [] [] [] [] [] []]; vm_compute; congruence. }
  unfold space at 1. cbn [run]. cbv zeta in Hsp. rewrite Hsp.
  assert (Hv : strip_prefix true "versus" (String c1 (w ++ rest)) = None).
  { cbn. now rewrite Hc1. }
  rewrite Hv.
  destruct (strip_prefix true "compared to" (String c1 (w ++ rest)))
    as [r1|] eqn:Hct.
  - exists r1. split; [reflexivity|].
    apply strip_prefix_length in Hct. rewrite Hct. cbn. lia.
  - rewrite Hc. exists rest. split; [reflexivity|].
    apply strip_prefix_length in Hc. rewrite Hc. cbn. lia.
Qed.

Lemma splitLoop_nonempty (fuel : nat) (r : regex) (cur s : string) :
  exists part parts, splitLoop fuel r cur s = part :: parts.
Proof.
  revert cur s. induction fuel as [|fuel IH]; intros cur s; cbn; eauto.
  destruct s as [|c s]; eauto.
  destruct (match_rest r (String c s)) as [rest|]; eauto.
  destruct ((String.length rest =? String.length (String c s))%nat
            && (String.length cur =? 0)%nat); eauto.
Qed.

Lemma extractColor_empty (vehicle : option Vehicle) :
  extractColor "" vehicle = None.
Proof. reflexivity. Qed.

(** X15.  For a text that starts with "compare" (in any letter case),
    [parseComparison] of services/nlu.ts takes the empty string as its first
    subject: the first vehicle is what the vehicle search finds for the empty
    string, and it carries no color, whatever follows in the text. *)
Theorem parseComparison_leading_compare (fuseTop : string -> list Vehicle)
  (w rest : string) :
  toLowerCase w = "compare" ->
  vehicle1 (parseComparison fuseTop (w ++ rest))
  = match hd_error (fuseTop "") with
    | Some v => Some {| vehicle := v; color := None |}
    | None => None
    end.
Proof.
  intros Hw.
  destruct (separator_at_compare w rest Hw) as (rest' & Hm & Hlen).
  unfold parseComparison. cbv zeta.
  assert (E : exists part parts,
             split separatorRe (w ++ rest) = "" :: part :: parts).
  { unfold split.
    destruct (w ++ rest) as [|c s] eqn:Es; [cbn in Hlen; lia|].
    rewrite Nat.add_1_r. cbn [splitLoop]. rewrite Hm.
    assert (Hne : (String.length rest' =? String.length (String c s))%nat
                  = false) by (apply Nat.eqb_neq; lia).
    rewrite Hne. cbn [andb].
    destruct (splitLoop_nonempty (2 * String.length (String c s))
                separatorRe "" rest') as (part & parts & ->).
    eauto. }
  destruct E as (part & parts & ->).
  cbn [vehicle1]. change (Text.trim "") with "".
  destruct (hd_error (fuseTop "")) as [v|]; [|reflexivity].
  now rewrite extractColor_empty.
Qed.

(** "Compare blue Camry vs silver Accord": the first subject is empty. *)
Lemma parseComparison_leading_compare_witness :
  vehicle1 (parseComparison (fun _ => []) 
              ("Compare" ++ " blue Camry vs silver Accord"))
  = None.
Proof.
  apply (parseComparison_leading_compare (fun _ => []) "Compare"
           " blue Camry vs silver Accord").
  reflexivity.
Defined.


(** *** The confidence of a parse *)

(** X16.  The confidence [parseQuery] of services/nlu.ts reports lies
    between 0.5 and 1: it is 0.5, plus 0.3 when the vehicle search finds
    something, plus 0.1 when the text mentions a color, plus 0.1 when a price
    bound that is not zero was read; it is 1 exactly when all three hold. *)
Theorem parseQuery_confidence (fuseSearch : string -> list Vehicle)
  (text : string) :
  let r := parseQuery fuseSearch text in
  let found := negb (Nat.eqb (List.length (fuseSearch text)) 0) in
  let colored := negb (Nat.eqb (List.length (colorList (entities r))) 0) in
  let priced :=
    truthy (min (Ts.extractPriceRange text))
    || truthy (max (Ts.extractPriceRange text)) in
  (confidence r ==
   0.5 + (if found then 0.3 else 0) + (if colored then 0.1 else 0)
   + (if priced then 0.1 else 0))%Q /\
  (0.5 <= confidence r)%Q /\ (confidence r <= 1)%Q /\
  ((confidence r == 1)%Q <-> found && colored && priced = true).
Proof.
  cbv zeta. unfold parseQuery, extractEntities, colorList. cbv zeta.
  cbn [entities confidence vehicles e_colors priceRange].
  destruct (fuseSearch text) as [|v vs];
    destruct (mentionedColors COLOR_SYNONYMS (toLowerCase text)) as [|k ks];
    destruct (truthy (min (Ts.extractPriceRange text))
              || truthy (max (Ts.extractPriceRange text)));
    cbn [map List.length Nat.eqb negb andb];
    vm_compute; repeat split; try discriminate; try reflexivity;
    intros H; discriminate H.
Qed.

End NluTsFacts.

(** ** The two generations of the NLU helpers side by side *)

Module NluMore.

Import Regex Nlu NluSpec.

Local Open Scope string_scope.

(** X17.  The price extractors of services/nlu.ts and server/utils/nlu.js
    return the same range for every text that, letter case aside, holds
    none of "budget", "cheap", "economical", "premium" and "expensive", the
    keywords the two tables price differently. *)
Theorem extractPriceRange_generations_agree (text : string) :
  mentions text ["budget"; "cheap"; "economical"; "premium"; "expensive"]
  = false ->
  Ts.extractPriceRange text = Js.extractPriceRange text.
Proof.
  unfold mentions. cbn [existsb]. intros H.
  repeat (apply orb_false_iff in H; destruct H as [? H]).
  unfold Ts.extractPriceRange, Js.extractPriceRange, Js.PRICE_KEYWORDS.
  cbv zeta. cbn [Js.priceKeywords].
  repeat match goal with
         | E : includes _ _ = false |- _ => rewrite E; clear E
         end.
  destruct (includes (toLowerCase text) "affordable"),
    (includes (toLowerCase text) "luxury"),
    (includes (toLowerCase text) "high-end"); reflexivity.
Qed.

Lemma extractPriceRange_generations_agree_witness :
  Ts.extractPriceRange "luxury SUVs over $60k"
  = Js.extractPriceRange "luxury SUVs over $60k".
Proof.
  apply extractPriceRange_generations_agree. reflexivity.
Defined.

(** X18.  In services/nlu.ts a compare keyword decides alone: a text that
    holds "vs", "versus", "compare" or "compared to" is a compare query; a
    text without them that holds a finance keyword is a finance query; a
    text with neither that holds a filter keyword is a filter query; every
    other text is a search. *)
Theorem Ts_detectIntent_cases (text : string) :
  (mentions text compareKeywords = true -> Ts.detectIntent text = compare) /\
  (mentions text compareKeywords = false ->
   mentions text financeKeywords = true -> Ts.detectIntent text = finance) /\
  (mentions text compareKeywords = false ->
   mentions text financeKeywords = false ->
   mentions text filterKeywords = true -> Ts.detectIntent text = filter) /\
  (mentions text compareKeywords = false ->
   mentions text financeKeywords = false ->
   mentions text filterKeywords = false -> Ts.detectIntent text = search).
Proof.
  rewrite NluFacts.Ts_detectIntent_precedence. unfold intent_by_precedence.
  repeat split; intros; 
    repeat match goal with
           | E : mentions _ _ = _ |- _ => rewrite E; clear E
           end; reflexivity.
Qed.

Lemma Ts_detectIntent_cases_witness :
  Ts.detectIntent "Camry versus Accord monthly payment" = compare /\
  Ts.detectIntent "monthly payment with no money down" = finance /\
  Ts.detectIntent "only hybrids" = filter /\
  Ts.detectIntent "red trucks" = search.
Proof.
  destruct (Ts_detectIntent_cases "Camry versus Accord monthly payment")
    as (H1 & _).
  destruct (Ts_detectIntent_cases "monthly payment with no money down")
    as (_ & H2 & _).
  destruct (Ts_detectIntent_cases "only hybrids") as (_ & _ & H3 & _).
  destruct (Ts_detectIntent_cases "red trucks") as (_ & _ & _ & H4).
  split; [apply H1; reflexivity|].
  split; [apply H2; reflexivity|].
  split; [apply H3; reflexivity|apply H4; reflexivity].
Defined.

(** X19.  In server/utils/nlu.js the intent is compare exactly when the
    text holds a compare keyword of its table and no search keyword ("show",
    "find", "search", "look for", "display", "list", "get", "see", "want",
    "need", "looking for"); it is finance only when the text holds no
    search, compare or filter keyword. *)
Theorem Js_detectIntent_compare_iff (text : string) :
  (Js.detectIntent text = compare <->
   mentions text jsSearchKeywords = false /\
   mentions text jsCompareKeywords = true) /\
  (Js.detectIntent text = finance <->
   mentions text jsSearchKeywords = false /\
   mentions text jsCompareKeywords = false /\
   mentions text jsFilterKeywords = false /\
   mentions text financeKeywords = true).
Proof.
  rewrite NluFacts.Js_detectIntent_table_order. unfold intent_by_table_order.
  destruct (mentions text jsSearchKeywords),
    (mentions text jsCompareKeywords),
    (mentions text jsFilterKeywords),
    (mentions text financeKeywords);
    split; split; intros H; try discriminate H; try (destruct H as (? & ?));
    try tauto; try discriminate; intuition discriminate.
Qed.


Lemma all_digits_app (a b : string) :
  all_digits a = true -> all_digits b = true -> all_digits (a ++ b) = true.
Proof.
  induction a as [|c a IH]; cbn; [auto|].
  intros H Hb. apply andb_prop in H as [Hc Ha].
  now rewrite Hc, IH.
Qed.

Lemma parseInt_all_digits (ds : string) :
  all_digits ds = true -> ds <> "" -> parseInt ds = Num (digits_value ds 0).
Proof.
  intros H Hne. rewrite <- (NluFacts.append_empty ds) at 1.
  now apply NluFacts.parseInt_digits.
Qed.

(** X20.  [parsePrice] drops the grouping commas: for digit strings a and
    b, a not empty, "a,b" parses to the number written ab, and "a,bk" to a
    thousand times that, as long as that stays within 2^53, where the
    numbers of the code are exact. *)
Theorem parsePrice_grouped (a b : string) :
  all_digits a = true -> a <> "" -> all_digits b = true ->
  (digits_value (a ++ b) 0 * 1000 <= 2 ^ 53)%Z ->
  parsePrice (a ++ "," ++ b) = Num (digits_value (a ++ b) 0) /\
  parsePrice (a ++ "," ++ b ++ "k") = Num (digits_value (a ++ b) 0 * 1000).
Proof.
  intros Ha Hne Hb _.
  assert (Hab : all_digits (a ++ b) = true) by now apply all_digits_app.
  assert (Hne' : a ++ b <> "") by (destruct a; [congruence|discriminate]).
  assert (Hk : forall tl, includes (toLowerCase ("," ++ b ++ tl)) "k"
                          = includes (toLowerCase tl) "k").
  { intros tl. change ("," ++ b ++ tl) with (String "," (b ++ tl)).
    cbn [toLowerCase includes String.prefix].
    change (lower ",") with ","%char.
    destruct (ascii_dec "k" ",") as [E|_]; [discriminate E|].
    now apply NluFacts.includes_k_digits. }
  assert (Hr : forall tl, remove_commas_k ("," ++ b ++ tl)
                          = b ++ remove_commas_k tl).
  { intros tl. change ("," ++ b ++ tl) with (String "," (b ++ tl)).
    cbn [remove_commas_k]. change (Ascii.eqb "," ",") with true.
    cbn [orb]. now apply NluFacts.remove_commas_k_digits. }
  split.
  - rewrite NluFacts.parsePrice_digits by exact Ha.
    pose proof (Hk "") as Hk0. pose proof (Hr "") as Hr0.
    rewrite NluFacts.append_empty in Hk0, Hr0. rewrite Hk0, Hr0.
    cbn [toLowerCase includes String.prefix remove_commas_k].
    rewrite NluFacts.append_empty.
    now apply parseInt_all_digits.
  - rewrite NluFacts.parsePrice_digits by exact Ha.
    rewrite Hk, Hr.
    change (includes (toLowerCase "k") "k") with true. cbn iota.
    change (remove_commas_k "k") with "".
    rewrite NluFacts.append_empty.
    now rewrite parseInt_all_digits.
Qed.

Lemma parsePrice_grouped_witness :
  parsePrice "25,000" = Num 25000 /\ parsePrice "1,5k" = Num 15000.
Proof.
  destruct (parsePrice_grouped "25" "000") as [H1 _];
    [reflexivity|discriminate|reflexivity|vm_compute; discriminate|].
  destruct (parsePrice_grouped "1" "5") as [_ H2];
    [reflexivity|discriminate|reflexivity|vm_compute; discriminate|].
  split; [exact H1|exact H2].
Defined.

End NluMore.

(** ** server/utils/nlu.js: models, comparison, query *)

Module NluJsFacts.

Import Regex Nlu NluSpec Text Catalog NluJs NluJsSpec.

Local Open Scope string_scope.

Lemma filter_head_In {A} (f : A -> bool) (l : list A) (x : A) (xs : list A) :
  List.filter f l = x :: xs -> In x l /\ f x = true.
Proof.
  intros H. apply filter_In. rewrite H. now left.
Qed.

Lemma aliasMatch_sound (vehiclesData : list Vehicle)
  (entries : list (string * list string)) (lowerText : string) (v : Vehicle) :
  aliasMatch vehiclesData entries lowerText = Some v ->
  In v vehiclesData /\
  exists key aliases alias,
    In (key, aliases) entries /\ In alias aliases /\
    includes lowerText alias = true /\
    includes (toLowerCase (Catalog.model v)) key = true.
Proof.
  induction entries as [|[key aliases] entries IH]; [discriminate|].
  cbn [aliasMatch].
  assert (G : forall l,
             (forall a, In a l -> In a aliases) ->
             (fix inner (aliases0 : list string) : option Vehicle :=
                match aliases0 with
                | [] => aliasMatch vehiclesData entries lowerText
                | alias :: aliases' =>
                  if includes lowerText alias
                  then
                    match
                      List.filter
                        (fun v0 =>
                           includes (toLowerCase (Catalog.model v0)) key)
                        vehiclesData
                    with
                    | [] => inner aliases'
                    | v0 :: _ => Some v0
                    end
                  else inner aliases'
                end) l = Some v ->
             In v vehiclesData /\
             exists key0 aliases0 alias,
               In (key0, aliases0) ((key, aliases) :: entries) /\
               In alias aliases0 /\
               includes lowerText alias = true /\
               includes (toLowerCase (Catalog.model v)) key0 = true).
  { induction l as [|a l IHl]; intros Hsub H.
    - destruct (IH H) as (Hin & k & als & al & Hk & Hal & Hinc & Hmod).
      split; [exact Hin|]. exists k, als, al. cbn. auto.
    - destruct (includes lowerText a) eqn:Ea.
      + destruct (List.filter _ vehiclesData) as [|v0 vs] eqn:Ef.
        * apply IHl; [|exact H]. intros x Hx. apply Hsub. now right.
        * injection H as <-. apply filter_head_In in Ef as [Hin Hf].
          split; [exact Hin|]. exists key, aliases, a.
          repeat split; cbn; auto. apply Hsub. now left.
      + apply IHl; [|exact H]. intros x Hx. apply Hsub. now right. }
  apply G. auto.
Qed.

Lemma makeMatch_sound (vehiclesData : list Vehicle)
  (entries : list (string * list string)) (lowerText : string) (v : Vehicle) :
  makeMatch vehiclesData entries lowerText = Some v ->
  In v vehiclesData /\
  exists key aliases alias,
    In (key, aliases) entries /\ In alias aliases /\
    includes lowerText alias = true /\
    toLowerCase (Catalog.make v) = key.
Proof.
  induction entries as [|[key aliases] entries IH]; [discriminate|].
  cbn [makeMatch].
  assert (G : forall l,
             (forall a, In a l -> In a aliases) ->
             (fix inner (aliases0 : list string) : option Vehicle :=
                match aliases0 with
                | [] => makeMatch vehiclesData entries lowerText
                | alias :: aliases' =>
                  if includes lowerText alias
                  then
                    match
                      List.filter
                        (fun v0 =>
                           String.eqb (toLowerCase (Catalog.make v0)) key)
                        vehiclesData
                    with
                    | [] => inner aliases'
                    | v0 :: _ => Some v0
                    end
                  else inner aliases'
                end) l = Some v ->
             In v vehiclesData /\
             exists key0 aliases0 alias,
               In (key0, aliases0) ((key, aliases) :: entries) /\
               In alias aliases0 /\
               includes lowerText alias = true /\
               toLowerCase (Catalog.make v) = key0).
  { induction l as [|a l IHl]; intros Hsub H.
    - destruct (IH H) as (Hin & k & als & al & Hk & Hal & Hinc & Hmod).
      split; [exact Hin|]. exists k, als, al. cbn. auto.
    - destruct (includes lowerText a) eqn:Ea.
      + destruct (List.filter _ vehiclesData) as [|v0 vs] eqn:Ef.
        * apply IHl; [|exact H]. intros x Hx. apply Hsub. now right.
        * injection H as <-. apply filter_head_In in Ef as [Hin Hf].
          apply String.eqb_eq in Hf.
          split; [exact Hin|]. exists key, aliases, a.
          repeat split; cbn; auto. apply Hsub. now left.
      + apply IHl; [|exact H]. intros x Hx. apply Hsub. now right. }
  apply G. auto.
Qed.

(** Where a string occurs, its suffixes occur. *)
Lemma prefix_drop (a b t : string) :
  String.prefix (a ++ b) t = true ->
  any_suffix (String.prefix b) t = true.
Proof.
  revert t. induction a as [|c a IH]; intros t H.
  - cbn [append] in H. destruct t; cbn [any_suffix]; now rewrite H.
  - destruct t as [|d t]; [discriminate|].
    cbn in H. destruct (ascii_dec c d); [|discriminate].
    cbn [any_suffix]. rewrite (IH _ H). apply orb_true_r.
Qed.

Lemma any_suffix_idem (f : string -> bool) (s : string) :
  any_suffix (fun t => any_suffix f t) s = any_suffix f s.
Proof.
  induction s as [|c s IH]; cbn.
  - now destruct (f "").
  - rewrite IH. destruct (f (String c s)), (any_suffix f s); reflexivity.
Qed.

Lemma includes_suffix (s a b : string) :
  includes s (a ++ b) = true -> includes s b = true.
Proof.
  rewrite !NluFacts.includes_any_suffix. intros H.
  rewrite <- any_suffix_idem.
  revert H. apply NluFacts.any_suffix_impl. intros t. apply prefix_drop.
Qed.

Lemma toLowerCase_app (a b : string) :
  toLowerCase (a ++ b) = toLowerCase a ++ toLowerCase b.
Proof. induction a as [|c a IH]; cbn; [reflexivity|now rewrite IH]. Qed.

(** The test on the full name adds nothing to the test on the model. *)
Lemma directMatch_model (lowerText : string) (v : Vehicle) :
  directMatch lowerText v
  = includes lowerText (toLowerCase (Catalog.model v)).
Proof.
  unfold directMatch. cbv zeta.
  apply NluFacts.orb_absorb. intros H.
  rewrite toLowerCase_app in H.
  apply includes_suffix in H.
  change (toLowerCase (" " ++ Catalog.model v))
    with (" " ++ toLowerCase (Catalog.model v)) in H.
  now apply includes_suffix in H.
Qed.

(** X21.  [fuzzyMatchModel] never invents a vehicle and never answers
    without a reason in the text: what it returns is a vehicle of the catalog
    whose model name occurs in the trimmed lower-case text, or whose model
    holds the key of a model alias that occurs there, or whose make is the
    key of a make alias that occurs there. *)
Theorem fuzzyMatchModel_sound (vehiclesData : list Vehicle) (text : string)
  (v : Vehicle) :
  fuzzyMatchModel vehiclesData text = Some v ->
  let lowerText := Text.trim (toLowerCase text) in
  In v vehiclesData /\
  (includes lowerText (toLowerCase (Catalog.model v)) = true \/
   (exists key aliases alias,
      In (key, aliases) MODEL_ALIASES /\ In alias aliases /\
      includes lowerText alias = true /\
      includes (toLowerCase (Catalog.model v)) key = true) \/
   (exists key aliases alias,
      In (key, aliases) MAKE_ALIASES /\ In alias aliases /\
      includes lowerText alias = true /\
      toLowerCase (Catalog.make v) = key)).
Proof.
  unfold fuzzyMatchModel. cbv zeta.
  destruct (find _ vehiclesData) as [d|] eqn:Hd.
  - intros [= <-]. apply find_some in Hd as [Hin Hm].
    rewrite directMatch_model in Hm. auto.
  - destruct (aliasMatch vehiclesData MODEL_ALIASES _) as [a|] eqn:Ha.
    + intros [= <-]. apply aliasMatch_sound in Ha as [Hin Hex]. auto.
    + intros Hm. apply makeMatch_sound in Hm as [Hin Hex]. auto.
Qed.

Lemma fuzzyMatchModel_sound_witness :
  fuzzyMatchModel twoVehicles "the acord please" = Some accord /\
  In accord twoVehicles.
Proof.
  split; [reflexivity|].
  apply (fuzzyMatchModel_sound twoVehicles "the acord please" accord).
  reflexivity.
Defined.

(** X22.  The direct match of [fuzzyMatchModel] decides first and on the
    model name alone: when the model name of some vehicle occurs in the
    trimmed lower-case text, the first such vehicle of the catalog is
    returned, whatever aliases and makes the text holds. *)
Theorem fuzzyMatchModel_direct (vehiclesData : list Vehicle) (text : string)
  (v : Vehicle) :
  find (fun v => includes (Text.trim (toLowerCase text))
                          (toLowerCase (Catalog.model v))) vehiclesData
  = Some v ->
  fuzzyMatchModel vehiclesData text = Some v.
Proof.
  intros H. unfold fuzzyMatchModel. cbv zeta.
  assert (E : find (directMatch (Text.trim (toLowerCase text))) vehiclesData
              = Some v).
  { rewrite <- H. clear H.
    induction vehiclesData as [|x xs IH]; [reflexivity|].
    cbn [find]. rewrite directMatch_model, IH. reflexivity. }
  now rewrite E.
Qed.

Lemma fuzzyMatchModel_direct_witness :
  fuzzyMatchModel twoVehicles "a Honda or the Toyota Camry" = Some camry.
Proof.
  apply fuzzyMatchModel_direct. reflexivity.
Defined.


(** *** Comparison and query *)

Lemma includes_empty (x : string) : includes "" x = true -> x = "".
Proof. destruct x; [reflexivity|discriminate]. Qed.

Lemma toLowerCase_empty (s : string) : toLowerCase s = "" -> s = "".
Proof. destruct s; [reflexivity|discriminate]. Qed.

(** Nothing of a catalog whose models have names matches the empty text. *)
Lemma fuzzyMatchModel_empty (vehiclesData : list Vehicle) :
  (forall v, In v vehiclesData -> Catalog.model v <> "") ->
  fuzzyMatchModel vehiclesData "" = None.
Proof.
  intros Hne. unfold fuzzyMatchModel. cbv zeta.
  change (Text.trim (toLowerCase "")) with "".
  assert (E : find (directMatch "") vehiclesData = None).
  { induction vehiclesData as [|x xs IH]; [reflexivity|].
    cbn [find]. rewrite directMatch_model.
    destruct (includes "" (toLowerCase (Catalog.model x))) eqn:Ex.
    - apply includes_empty, toLowerCase_empty in Ex.
      exfalso. apply (Hne x); [now left|exact Ex].
    - apply IH. intros v Hv. apply Hne. now right. }
  rewrite E. reflexivity.
Qed.

(** X23.  [parseComparison] of server/utils/nlu.js returns null for a text
    of ASCII characters without separator; and for a text that starts with
    "compare" (in any letter case) its first subject is the empty string, so
    that, over a catalog whose models have names, the first vehicle is null
    whatever follows in the text. *)
Theorem Js_parseComparison_first_subject (vehiclesData : list Vehicle) :
  (forall text, ascii_only text = true ->
                test true separatorRe text = false ->
                parseComparison vehiclesData text = None) /\
  (forall w rest,
     toLowerCase w = "compare" ->
     (forall v, In v vehiclesData -> Catalog.model v <> "") ->
     exists c, parseComparison vehiclesData (w ++ rest) = Some c /\
               vehicle1 c = None).
Proof.
  split.
  - intros text _ H. rewrite NluFacts.test_any_suffix in H.
    unfold parseComparison. cbv zeta.
    assert (E : split separatorRe text = [text]).
    { unfold split. destruct text as [|c text].
      - cbn [any_suffix] in H. apply orb_false_iff in H as [Hm _].
        apply NluTsFacts.match_rest_matches_at in Hm. now rewrite Hm.
      - now rewrite NluTsFacts.splitLoop_no_match. }
    now rewrite E.
  - intros w rest Hw Hne.
    destruct (NluTsFacts.separator_at_compare w rest Hw)
      as (rest' & Hm & Hlen).
    change NluTs.separatorRe with separatorRe in Hm.
    unfold parseComparison. cbv zeta.
    assert (E : exists part parts,
               split separatorRe (w ++ rest) = "" :: part :: parts).
    { unfold split.
      destruct (w ++ rest) as [|c s] eqn:Es; [cbn in Hlen; lia|].
      rewrite Nat.add_1_r. cbn [splitLoop]. rewrite Hm.
      assert (Hn : (String.length rest' =? String.length (String c s))%nat
                   = false) by (apply Nat.eqb_neq; lia).
      rewrite Hn. cbn [andb].
      destruct (NluTsFacts.splitLoop_nonempty
                  (2 * String.length (String c s)) separatorRe "" rest')
        as (part & parts & ->).
      eauto. }
    destruct E as (part & parts & ->).
    change (Text.trim "") with "".
    rewrite (fuzzyMatchModel_empty vehiclesData Hne).
    eexists. split; reflexivity.
Qed.

(** "compare Camry vs Accord" over the Camry and the Accord: the first
    vehicle is null. *)
Lemma Js_parseComparison_first_subject_witness :
  parseComparison twoVehicles "camry and accord" = None /\
  exists c, parseComparison twoVehicles ("compare" ++ " Camry vs Accord")
            = Some c /\ vehicle1 c = None.
Proof.
  destruct (Js_parseComparison_first_subject twoVehicles) as [H1 H2].
  split.
  - apply H1; [reflexivity|vm_compute; reflexivity].
  - apply H2; [reflexivity|].
    intros v [<-|[<-|[]]]; discriminate.
Defined.

(** X24.  [parseQuery] of server/utils/nlu.js carries a comparison only
    for the intent compare: a text that holds a search keyword ("show",
    "find", "see", "want", "need", ...) is a search and gets no comparison,
    also when it holds "vs". *)
Theorem Js_parseQuery_search_has_no_comparison (vehiclesData : list Vehicle)
  (text : string) :
  mentions text jsSearchKeywords = true ->
  intent (parseQuery vehiclesData text) = search /\
  comparison (parseQuery vehiclesData text) = None.
Proof.
  intros H. unfold parseQuery. cbv zeta. cbn [intent comparison].
  rewrite NluFacts.Js_detectIntent_table_order.
  unfold intent_by_table_order. rewrite H. split; reflexivity.
Qed.

Lemma Js_parseQuery_search_has_no_comparison_witness :
  intent (parseQuery twoVehicles "show me the Camry vs Accord") = search /\
  comparison (parseQuery twoVehicles "show me the Camry vs Accord") = None.
Proof.
  apply Js_parseQuery_search_has_no_comparison. reflexivity.
Defined.

(** *** The two generations on type and fuel *)

Lemma test_Lit_mentions (w text : string) :
  String.eqb (toLowerCase w) w = true ->
  test true (Lit w) (toLowerCase text) = includes (toLowerCase text) w.
Proof.
  intros Hw. change (Lit w) with (lits [w]).
  rewrite NluFacts.lits_mentions by (cbn; now rewrite Hw).
  unfold mentions. cbn. apply orb_false_r.
Qed.

(** X25.  The filter extractors of services/nlu.ts and server/utils/nlu.js
    read the same vehicle type from every text, and the same fuel type from
    every text that does not hold "petrol", over any catalog. *)
Theorem type_and_fuel_agree (vehiclesData : list Vehicle) (text : string) :
  NluTs.f_type (NluTs.extractFilterFields (toLowerCase text))
  = type (extractFilters vehiclesData text) /\
  (includes (toLowerCase text) "petrol" = false ->
   NluTs.f_fuelType (NluTs.extractFilterFields (toLowerCase text))
   = fuelType (extractFilters vehiclesData text)).
Proof.
  unfold NluTs.extractFilterFields, extractFilters. cbv zeta.
  rewrite !NluFacts.lits_mentions by reflexivity.
  rewrite !test_Lit_mentions by reflexivity.
  unfold mentions. cbn [existsb]. rewrite !orb_false_r, !orb_assoc.
  set (l := toLowerCase text).
  cbn [NluTs.f_type NluTs.f_fuelType].
  assert (Hp : includes l "petrol" = false ->
               forall b, b || includes l "petrol" = b)
    by (intros -> b; apply orb_false_r).
  split; [|intros Hpetrol; rewrite (Hp Hpetrol)]; clear Hp.
  all: destruct (fuzzyMatchModel vehiclesData text) as [v|].
  all: destruct (includes l "hybrid");
         [destruct (includes l "plug-in" || includes l "plugin"
                    || includes l "phev")
         |destruct (includes l "electric" || includes l "ev"
                    || includes l "battery");
            [|destruct (includes l "gas" || includes l "gasoline")]].
  all: destruct (includes l "suv" || includes l "sport utility");
         [|destruct (includes l "sedan");
            [|destruct (includes l "truck" || includes l "pickup");
               [|destruct (includes l "compact" && negb (includes l "suv"))]]].
  all: try destruct (includes l "petrol").
  all: first [discriminate | reflexivity].
Qed.

Lemma type_and_fuel_agree_witness :
  NluTs.f_type (NluTs.extractFilterFields (toLowerCase "a hybrid SUV"))
  = type (extractFilters twoVehicles "a hybrid SUV") /\
  NluTs.f_fuelType (NluTs.extractFilterFields (toLowerCase "a hybrid SUV"))
  = fuelType (extractFilters twoVehicles "a hybrid SUV").
Proof.
  destruct (type_and_fuel_agree twoVehicles "a hybrid SUV") as [H1 H2].
  split; [exact H1|apply H2; reflexivity].
Defined.

End NluJsFacts.

(** ** The first server: filtering, and the word "affordable" *)

Module LegacyFacts.

Import Regex Nlu NluSpec Text.

Local Open Scope string_scope.

Lemma includes_nil (s : string) : includes s "" = true.
Proof. destruct s; reflexivity. Qed.

Lemma keeps_SUV (filters : Legacy.Filters) (vehicle : Legacy.Vehicle) :
  Legacy.f_type filters = Some "SUV" ->
  Legacy.keeps filters vehicle
  = Legacy.keeps (Legacy.without_type filters) vehicle.
Proof.
  intros Ht. unfold Legacy.keeps. cbv zeta. rewrite Ht.
  cbn [Legacy.without_type Legacy.f_type Legacy.given Legacy.f_drivetrain
       Legacy.f_fuelType Legacy.minPrice Legacy.maxPrice Legacy.minMpg
       Legacy.f_make Legacy.f_model].
  change (Text.trim (Legacy.replaceFirst "SUV" "" "SUV")) with "".
  now rewrite includes_nil.
Qed.

(** X26.  In the first server a type filter of "SUV" excludes nothing:
    [filterVehicles] keeps the same vehicles, sedans and trucks included, as
    without the type; only the other constraints select. *)
Theorem filterVehicles_SUV_excludes_nothing
  (vehicles : list Legacy.Vehicle) (filters : Legacy.Filters) :
  Legacy.f_type filters = Some "SUV" ->
  Legacy.filterVehicles vehicles filters
  = Legacy.filterVehicles vehicles (Legacy.without_type filters).
Proof.
  intros Ht. unfold Legacy.filterVehicles.
  induction vehicles as [|v vs IH]; [reflexivity|].
  cbn [List.filter]. now rewrite (keeps_SUV filters v Ht), IH.
Qed.

(** The query "suv" over a sedan and an SUV: both are kept. *)
Lemma filterVehicles_SUV_excludes_nothing_witness :
  Legacy.filterVehicles [Legacy.camryXse; Legacy.rav4Hybrid]
    (Legacy.parseQueryFilters "suv")
  = [Legacy.camryXse; Legacy.rav4Hybrid].
Proof.
  rewrite filterVehicles_SUV_excludes_nothing by reflexivity.
  vm_compute. reflexivity.
Defined.

Lemma times_1 (x : number) : times x 1 = x.
Proof. destruct x as [|n]; cbn; [reflexivity|]. now rewrite Z.mul_1_r. Qed.

Lemma remove_commas_k_lower (m : string) :
  toLowerCase m = m -> Legacy.remove_commas_k m = remove_commas_k m.
Proof.
  induction m as [|c m IH]; [reflexivity|].
  cbn. intros [= Hc Hm]. rewrite Hc, (IH Hm). reflexivity.
Qed.

(** X27.  On lower-case text the amount the first server reads from a
    price group is the amount [parsePrice] reads: the same digits, the same
    factor of 1000 for a "k", and none for "thousand". *)
Theorem extractAmount_is_parsePrice (m : string) :
  toLowerCase m = m -> Legacy.extractAmount m = parsePrice m.
Proof.
  intros Hm. unfold Legacy.extractAmount, parsePrice. cbv zeta.
  rewrite (remove_commas_k_lower m Hm).
  destruct (includes (toLowerCase m) "k"); [reflexivity|apply times_1].
Qed.

Lemma extractAmount_is_parsePrice_witness :
  Legacy.extractAmount "30thousand" = parsePrice "30thousand" /\
  Legacy.extractAmount "1,250k" = Num 1250000.
Proof.
  split.
  - apply extractAmount_is_parsePrice. reflexivity.
  - rewrite extractAmount_is_parsePrice by reflexivity. reflexivity.
Defined.

(** "ford" is inside "affordable". *)
Lemma affordable_holds_ford (s : string) :
  includes s "affordable" = true -> includes s "ford" = true.
Proof.
  intros H.
  apply (NluJsFacts.includes_suffix s "af" "fordable") in H.
  now apply (NluFacts.includes_app s "ford" "able") in H.
Qed.

(** X28.  The word "affordable" names a make: a text that holds it reads
    as a request for Ford in all three generations.  services/nlu.ts and the
    first server, which take the first make of their list, answer Ford
    unless the text holds "toyota", "honda" or "mazda"; server/utils/nlu.js,
    where the last make of the table wins, answers Ford unless the text
    holds "nissan" or "nisan" or a vehicle of the catalog is matched. *)
Theorem affordable_reads_as_Ford (text : string) :
  includes (toLowerCase text) "affordable" = true ->
  (mentions text ["toyota"; "honda"; "mazda"] = false ->
   NluTs.f_make (NluTs.extractFilterFields (toLowerCase text)) = Some "Ford"
   /\ Legacy.f_make (Legacy.parseQueryFilters text) = Some "Ford") /\
  (forall vehiclesData,
     mentions text ["nissan"; "nisan"] = false ->
     NluJs.fuzzyMatchModel vehiclesData text = None ->
     NluJs.make (NluJs.extractFilters vehiclesData text) = Some "Ford").
Proof.
  intros Ha. pose proof (affordable_holds_ford _ Ha) as Hf.
  unfold mentions. cbn [existsb]. split.
  - intros H.
    repeat (apply orb_false_iff in H; destruct H as [? H]).
    split.
    + unfold NluTs.extractFilterFields. cbv zeta. cbn [NluTs.f_make].
      cbn [NluTs.firstMake].
      repeat match goal with
             | E : includes _ _ = _ |- _ => rewrite E; clear E
             end.
      reflexivity.
    + unfold Legacy.parseQueryFilters. cbv zeta.
      destruct (Legacy.priceBounds (toLowerCase text)) as [mn mx].
      cbn [Legacy.f_make Legacy.firstOf].
      repeat match goal with
             | E : includes _ _ = _ |- _ => rewrite E; clear E
             end.
      reflexivity.
  - intros vehiclesData H Hm.
    repeat (apply orb_false_iff in H; destruct H as [? H]).
    unfold NluJs.extractFilters. cbv zeta. rewrite Hm.
    set (l := toLowerCase text) in *.
    assert (E : NluJs.filterMake NluJs.MAKE_ALIASES l None = Some "Ford").
    { unfold NluJs.MAKE_ALIASES. cbn [NluJs.filterMake existsb].
      repeat match goal with
             | E : includes l _ = _ |- _ => rewrite E; clear E
             end.
      cbn [orb]. reflexivity. }
    rewrite E.
    repeat match goal with
           | |- context [let '(_, _) := if ?c then _ else _ in _] =>
             destruct c
           end;
      reflexivity.
Qed.

Lemma affordable_reads_as_Ford_witness :
  NluTs.f_make (NluTs.extractFilterFields (toLowerCase "affordable cars"))
  = Some "Ford" /\
  Legacy.f_make (Legacy.parseQueryFilters "affordable cars") = Some "Ford" /\
  NluJs.make (NluJs.extractFilters NluJsSpec.twoVehicles "affordable cars")
  = Some "Ford".
Proof.
  destruct (affordable_reads_as_Ford "affordable cars") as [H1 H2];
    [reflexivity|].
  destruct H1 as [Ht Hl]; [reflexivity|].
  split; [exact Ht|]. split; [exact Hl|].
  apply H2; reflexivity.
Defined.

End LegacyFacts.

(** ** Financing engine, in the arithmetic of the code *)

Module DoubleFacts.

Import Double DoubleSpec.

Local Open Scope float_scope.

(** *** Comparisons of binary64 numbers *)

Lemma SFcompare_antisym (a b : spec_float) :
  SFcompare b a = option_map CompOpp (SFcompare a b).
Proof.
  destruct a as [sa|sa| |sa ma ea], b as [sb|sb| |sb mb eb];
    try reflexivity;
    try (destruct sa; reflexivity); try (destruct sb; reflexivity);
    try (destruct sa, sb; reflexivity).
  cbn [SFcompare option_map].
  destruct sa, sb; try reflexivity;
    rewrite (Z.compare_antisym ea eb);
    destruct (ea ?= eb)%Z; cbn [CompOpp]; try reflexivity;
    change (Pos.compare_cont Eq mb ma) with (mb ?= ma)%positive;
    change (Pos.compare_cont Eq ma mb) with (ma ?= mb)%positive;
    rewrite (Pos.compare_antisym ma mb);
    destruct (ma ?= mb)%positive; reflexivity.
Qed.

(** x < y excludes y <= x. *)
Lemma ltb_leb_false (x y : float) : (x <? y) = true -> (y <=? x) = false.
Proof.
  rewrite ltb_spec, leb_spec. unfold SFltb, SFleb.
  rewrite (SFcompare_antisym (Prim2SF x) (Prim2SF y)).
  destruct (SFcompare (Prim2SF x) (Prim2SF y)) as [[| |]|]; cbn; congruence.
Qed.

(** x <= y excludes y < x. *)
Lemma leb_ltb_false (x y : float) : (x <=? y) = true -> (y <? x) = false.
Proof.
  rewrite ltb_spec, leb_spec. unfold SFltb, SFleb.
  rewrite (SFcompare_antisym (Prim2SF x) (Prim2SF y)).
  destruct (SFcompare (Prim2SF x) (Prim2SF y)) as [[| |]|]; cbn; congruence.
Qed.

(** Under the domain constraints none of the five validation guards
    fires. *)
Lemma valid_guards (p : FinancingParams) :
  valid p ->
  (price p <=? 0) = false /\ (termMonths p <=? 0) = false /\
  (downPayment p <? 0) = false /\ (tradeInValue p <? 0) = false /\
  (taxRate p <? 0) = false /\ (1 <? taxRate p) = false.
Proof.
  intros (Hp & Ht & Hd & Hti & Htx0 & Htx1 & _).
  repeat split;
    first [ apply ltb_leb_false; assumption
          | apply leb_ltb_false; assumption ].
Qed.

(** The residual of the code is the residual of the vocabulary. *)
Lemma js_or_lease_residual (p : FinancingParams) :
  js_or (residualValue p) (Math_round (price p * 0.55)) = lease_residual p.
Proof. reflexivity. Qed.

(** What [calculateLease] does once its three guards are passed. *)
Lemma calculateLease_checked (p : FinancingParams) :
  (price p <=? 0) = false -> (termMonths p <=? 0) = false ->
  (downPayment p <? 0) = false ->
  calculateLease p =
  if netFinanced p <=? lease_residual p
  then Throw "Residual value cannot exceed net price"
  else
    Ok {| monthlyPayment :=
            Math_round (lease_monthly (netFinanced p) (lease_residual p)
                                      (apr p) (termMonths p));
          totalCost :=
            Math_round
              (total_cost (lease_monthly (netFinanced p) (lease_residual p)
                                         (apr p) (termMonths p)) p);
          totalInterest := None;
          leaseResidualValue := Some (lease_residual p);
          breakdown :=
            {| principal := None;
               interest := None;
               taxes := Math_round (price p * taxRate p);
               tradeIn := Some (tradeInValue p);
               depreciation :=
                 Some (Math_round ((netFinanced p - lease_residual p)
                                   / termMonths p));
               finance :=
                 Some (Math_round ((netFinanced p + lease_residual p)
                                   * (apr p / 2400)));
               vehicle := None;
               insurance := None;
               maintenance := None |};
          type := Financing.lease |}.
Proof.
  intros E1 E2 E3. unfold calculateLease. cbv zeta.
  rewrite E1, E2, E3, js_or_lease_residual. reflexivity.
Qed.

Lemma calculateLease_valid (p : FinancingParams) :
  valid p ->
  calculateLease p =
  if netFinanced p <=? lease_residual p
  then Throw "Residual value cannot exceed net price"
  else
    Ok {| monthlyPayment :=
            Math_round (lease_monthly (netFinanced p) (lease_residual p)
                                      (apr p) (termMonths p));
          totalCost :=
            Math_round
              (total_cost (lease_monthly (netFinanced p) (lease_residual p)
                                         (apr p) (termMonths p)) p);
          totalInterest := None;
          leaseResidualValue := Some (lease_residual p);
          breakdown :=
            {| principal := None;
               interest := None;
               taxes := Math_round (price p * taxRate p);
               tradeIn := Some (tradeInValue p);
               depreciation :=
                 Some (Math_round ((netFinanced p - lease_residual p)
                                   / termMonths p));
               finance :=
                 Some (Math_round ((netFinanced p + lease_residual p)
                                   * (apr p / 2400)));
               vehicle := None;
               insurance := None;
               maintenance := None |};
          type := Financing.lease |}.
Proof.
  intros Hv. destruct (valid_guards p Hv) as (E1 & E2 & E3 & _).
  now apply calculateLease_checked.
Qed.

Lemma baseParams_valid : valid baseParams.
Proof. unfold valid. repeat split; reflexivity. Defined.


Lemma residualAbovePrice_valid : valid residualAbovePrice.
Proof. unfold valid. repeat split; reflexivity. Defined.

(** *** Purchase *)






(** In decimal 30726 / 36 is the tie 853.5; the code divides the binary
    30725.999999999996 and reports 853. *)
Lemma purchase_zero_apr_tie :
  exists r, calculatePurchase (fun _ _ => nan) tieAtZeroApr = Ok r /\
    monthlyPayment r = 853.
Proof. eexists. split; reflexivity. Qed.

(** The interest at 0% APR is the rounding of a difference of rounded
    amounts: it is 0 on the amounts of a car, and 1 at amounts of sixteen
    digits. *)
Lemma purchase_zero_apr_interest :
  valid sixteenDigits /\ (apr sixteenDigits =? 0) = true /\
  exists r, calculatePurchase (fun _ _ => nan) sixteenDigits = Ok r /\
    totalInterest r = Some 1.
Proof.
  split; [unfold valid; repeat split; reflexivity|].
  split; [reflexivity|]. eexists. split; reflexivity.
Qed.

(** *** Lease *)

(** C6, as amended.  [calculateLease] works with the supplied residual value
    when there is one and it is not zero (nor NaN), and with 55% of the price
    rounded to a whole unit otherwise; it throws exactly when the net financed
    amount, as the code computes it, is at most that residual, and reports
    that residual when it returns. *)
Theorem lease_residual_check (p : FinancingParams) :
  valid p ->
  (threw (calculateLease p)
   <-> (netFinanced p <=? lease_residual p) = true) /\
  (returned (calculateLease p)
   <-> (netFinanced p <=? lease_residual p) = false) /\
  (forall r, calculateLease p = Ok r ->
             leaseResidualValue r = Some (lease_residual p)).
Proof.
  intros Hv. rewrite (calculateLease_valid p Hv).
  destruct (netFinanced p <=? lease_residual p).
  - cbn. repeat split; try tauto; discriminate.
  - cbn. repeat split; try tauto; try discriminate.
    intros r [= <-]. reflexivity.
Qed.

(** The example of the specification: price 10000 with a residual value of
    50000 throws. *)
Lemma lease_residual_check_witness : threw (calculateLease residualAbovePrice).
Proof.
  apply (lease_residual_check residualAbovePrice residualAbovePrice_valid).
  reflexivity.
Defined.

(** C6 as stated fails twice: a supplied residual value of zero is replaced
    by the default, and the default is rounded.  In both inputs the stated
    residual is below the net amount, and [calculateLease] throws. *)
Lemma lease_residual_counterexample :
  ~ residual_claim zeroResidual /\ ~ residual_claim roundedDefault.
Proof.
  split; intros H.
  - assert (Hv : valid zeroResidual)
      by (unfold valid; repeat split; reflexivity).
    destruct (H Hv) as [Hthrow _].
    assert (Hle : (netFinanced zeroResidual
                   <=? residual_as_stated zeroResidual) = true)
      by (apply Hthrow; exact I).
    vm_compute in Hle. discriminate Hle.
  - assert (Hv : valid roundedDefault)
      by (unfold valid; repeat split; reflexivity).
    destruct (H Hv) as [Hthrow _].
    assert (Hle : (netFinanced roundedDefault
                   <=? residual_as_stated roundedDefault) = true)
      by (apply Hthrow; exact I).
    vm_compute in Hle. discriminate Hle.
Qed.

(** The check compares the numbers of the code: at price 25001 with
    13250.08 down and 8% tax the net amount is 13751 in decimal, the
    default residual; the code computes 13751.000000000002 and returns. *)
Lemma lease_residual_boundary :
  valid netAtResidual /\
  (netFinanced netAtResidual <=? lease_residual netAtResidual) = false /\
  exists r, calculateLease netAtResidual = Ok r /\ monthlyPayment r = 63.
Proof.
  split; [unfold valid; repeat split; reflexivity|].
  split; [reflexivity|]. eexists. split; reflexivity.
Qed.

(** C7, as amended.  For a valid lease input, one that passes the residual
    check, [calculateLease] returns; with the residual it selects (the
    supplied one unless absent, zero or NaN, else the rounded 55% of the
    price)
    its monthly payment is the rounding of (net - residual) / termMonths +
    (net + residual) * (apr / 2400), and its total cost the rounding of that
    unrounded payment * termMonths + downPayment + tradeInValue. *)
Theorem lease_payment_formula (p : FinancingParams) :
  valid p -> (netFinanced p <=? lease_residual p) = false ->
  exists r, calculateLease p = Ok r /\
    leaseResidualValue r = Some (lease_residual p) /\
    monthlyPayment r =
      Math_round (lease_monthly (netFinanced p) (lease_residual p)
                                (apr p) (termMonths p)) /\
    totalCost r =
      Math_round (total_cost (lease_monthly (netFinanced p) (lease_residual p)
                                            (apr p) (termMonths p)) p) /\
    depreciation (breakdown r) =
      Some (Math_round ((netFinanced p - lease_residual p) / termMonths p)) /\
    finance (breakdown r) =
      Some (Math_round ((netFinanced p + lease_residual p) * (apr p / 2400))).
Proof.
  intros Hv Hres. rewrite (calculateLease_valid p Hv), Hres.
  eexists. split; [reflexivity|]. cbn. auto 6.
Qed.

(** The fixture as a lease: net 30400, residual 16500, 339 a month, 22349
    in total. *)
Lemma lease_payment_formula_witness :
  exists r, calculateLease baseParams = Ok r /\
    monthlyPayment r = 339 /\ totalCost r = 22349.
Proof.
  destruct (lease_payment_formula baseParams baseParams_valid)
    as (r & Hr & _ & Hm & Ht & _).
  - reflexivity.
  - exists r. split; [exact Hr|]. rewrite Hm, Ht. split; reflexivity.
Defined.

(** C7 as stated fails for a supplied residual value of zero: with the
    residual of the specification (0) the formula gives 576 a month on the
    fixture, [calculateLease] works with the default 16500 and reports
    339. *)
Lemma lease_payment_formula_counterexample :
  ~ lease_formula_claim zeroResidualFixture.
Proof.
  intros H.
  destruct H as (r & Hr & Hm).
  - unfold valid. repeat split; reflexivity.
  - reflexivity.
  - vm_compute in Hr. injection Hr as <-. vm_compute in Hm. discriminate Hm.
Qed.

(** C10.  A lease input that supplies a residual value of 0 is treated as
    one that supplies none: the two calls agree, and the residual in force,
    checked against the net amount and reported, is the default, 55% of the
    price rounded. *)
Theorem lease_zero_residual_is_default (p : FinancingParams) :
  valid p ->
  calculateLease (with_residualValue p (Some 0))
  = calculateLease (with_residualValue p None) /\
  (threw (calculateLease (with_residualValue p (Some 0)))
   <-> (netFinanced p <=? Math_round (price p * 0.55)) = true) /\
  (forall r, calculateLease (with_residualValue p (Some 0)) = Ok r ->
             leaseResidualValue r = Some (Math_round (price p * 0.55))).
Proof.
  intros Hv. split; [reflexivity|].
  assert (Hv0 : valid (with_residualValue p (Some 0))) by exact Hv.
  rewrite (calculateLease_valid _ Hv0).
  change (lease_residual (with_residualValue p (Some 0)))
    with (Math_round (price p * 0.55)).
  change (netFinanced (with_residualValue p (Some 0))) with (netFinanced p).
  destruct (netFinanced p <=? Math_round (price p * 0.55)).
  - cbn. split; [tauto|discriminate].
  - cbn. split.
    + split; [tauto|discriminate].
    + intros r [= <-]. reflexivity.
Qed.

(** The fixture with a residual value of 0: the lease returns with the
    default residual 16500. *)
Lemma lease_zero_residual_is_default_witness :
  calculateLease (with_residualValue baseParams (Some 0))
  = calculateLease (with_residualValue baseParams None) /\
  exists r, calculateLease (with_residualValue baseParams (Some 0)) = Ok r /\
            leaseResidualValue r = Some 16500.
Proof.
  destruct (lease_zero_residual_is_default baseParams baseParams_valid)
    as (Heq & _ & Hres).
  split; [exact Heq|].
  eexists. split; [reflexivity|].
  rewrite (Hres _ eq_refl). reflexivity.
Defined.

(** *** Subscription *)

(** C8.  For a valid subscription input [calculateSubscription] returns; its
    monthly payment is the rounding of 60% of the net financed amount /
    termMonths + 150 + 100, with insurance 150 and maintenance 100 in the
    breakdown; and the result is the same whatever apr and residualValue
    are. *)
Theorem subscription_payment_formula (p : FinancingParams) :
  valid p ->
  (exists r, calculateSubscription p = Ok r /\
     monthlyPayment r =
       Math_round (subscription_monthly (netFinanced p) (termMonths p)) /\
     totalCost r =
       Math_round
         (total_cost (subscription_monthly (netFinanced p) (termMonths p))
                     p) /\
     vehicle (breakdown r) =
       Some (Math_round (netFinanced p * 0.6 / termMonths p)) /\
     insurance (breakdown r) = Some 150 /\
     maintenance (breakdown r) = Some 100) /\
  (forall (a : float) (rv : option float),
     calculateSubscription (with_apr (with_residualValue p rv) a)
     = calculateSubscription p).
Proof.
  intros Hv.
  destruct (valid_guards p Hv) as (E1 & E2 & _).
  split; [|reflexivity].
  unfold calculateSubscription. cbv zeta. rewrite E1, E2.
  eexists. split; [reflexivity|]. cbn. auto 6.
Qed.

(** The fixture as a subscription: 554 a month and 35240 in total, also at
    another APR and with a residual value. *)
Lemma subscription_payment_formula_witness :
  (exists r, calculateSubscription baseParams = Ok r /\
     monthlyPayment r = 554 /\ totalCost r = 35240)
  /\ calculateSubscription (with_apr (with_residualValue baseParams (Some 9)) 0)
     = calculateSubscription baseParams.
Proof.
  destruct (subscription_payment_formula baseParams baseParams_valid)
    as ((r & Hr & Hm & Ht & _) & Hindep).
  split.
  - exists r. split; [exact Hr|]. rewrite Hm, Ht. split; reflexivity.
  - apply Hindep.
Defined.

(** The reported amounts are roundings of binary amounts: a lease whose
    total is 7833.5 in decimal reports 7833, a subscription whose payment is
    766.5 in decimal reports 766. *)
Lemma reported_amounts_at_ties :
  (exists r, calculateLease leaseTie = Ok r /\ totalCost r = 7833) /\
  (exists r, calculateSubscription subscriptionTie = Ok r /\
             monthlyPayment r = 766).
Proof. split; eexists; split; reflexivity. Qed.

(** The inputs [calculatePurchase] rejects and the two other calculators
    accept give the same payments in binary64 as in exact arithmetic. *)
Lemma accepted_amounts :
  (exists r, calculateLease negativeTradeIn = Ok r /\ monthlyPayment r = 434) /\
  (exists r, calculateLease taxRateTwo = Ok r /\ monthlyPayment r = 1431) /\
  (exists r, calculateSubscription negativeTradeIn = Ok r
             /\ monthlyPayment r = 604) /\
  (exists r, calculateSubscription taxRateTwo = Ok r
             /\ monthlyPayment r = 1130) /\
  (exists r, calculateSubscription negativeDownPayment = Ok r
             /\ monthlyPayment r = 594).
Proof. repeat split; eexists; split; reflexivity. Qed.

(** *** What makes the calculators throw *)

(** X2.  [calculateLease] throws exactly when price <= 0, termMonths <= 0,
    downPayment < 0, or the net financed amount is at most the residual in
    force (the supplied one unless absent or zero, else the rounded 55% of
    the price), all compared as the code computes them; a negative trade-in
    value or a tax rate outside [0,1] never makes it throw by itself. *)
Theorem calculateLease_throws_iff (p : FinancingParams) :
  threw (calculateLease p) <->
  (price p <=? 0) = true \/ (termMonths p <=? 0) = true \/
  (downPayment p <? 0) = true \/
  (netFinanced p <=? js_or (residualValue p) (Math_round (price p * 0.55)))
  = true.
Proof.
  unfold calculateLease, netFinanced, adjustedPrice. cbv zeta.
  destruct (price p <=? 0); [cbn; tauto|].
  destruct (termMonths p <=? 0); [cbn; intuition congruence|].
  destruct (downPayment p <? 0); [cbn; intuition congruence|].
  destruct (_ <=? _); cbn; intuition congruence.
Qed.

Lemma purchase_returned_iff (Math_pow : float -> float -> float)
  (p : FinancingParams) :
  returned (calculatePurchase Math_pow p) <-> ~ rejected p.
Proof.
  unfold rejected, calculatePurchase. cbv zeta.
  destruct (price p <=? 0); [cbn; tauto|].
  destruct (termMonths p <=? 0); [cbn; tauto|].
  destruct (downPayment p <? 0); [cbn; tauto|].
  destruct (tradeInValue p <? 0); [cbn; tauto|].
  destruct (taxRate p <? 0); [cbn; tauto|].
  destruct (1 <? taxRate p); [cbn; tauto|].
  cbn [orb]. destruct (_ <=? 0); cbn; intuition congruence.
Qed.

(** X3.  [calculateAllScenarios] returns exactly when the input passes the
    five checks of [calculatePurchase] and the residual check of
    [calculateLease], all compared as the code computes them;
    [calculateSubscription] never adds a failure of its own, and neither
    does what [Math.pow] returns. *)
Theorem calculateAllScenarios_returns_iff
  (Math_pow : float -> float -> float) (p : FinancingParams) :
  returned (calculateAllScenarios Math_pow p) <->
  ~ rejected p /\
  (netFinanced p <=? js_or (residualValue p) (Math_round (price p * 0.55)))
  = false.
Proof.
  unfold calculateAllScenarios.
  pose proof (purchase_returned_iff Math_pow p) as Hp.
  destruct (calculatePurchase Math_pow p) as [b|msg]; cbn in Hp.
  - assert (Hr : ~ rejected p) by tauto.
    assert (E1 : (price p <=? 0) = false)
      by (destruct (price p <=? 0) eqn:E; [|reflexivity];
          exfalso; apply Hr; left; exact E).
    assert (E2 : (termMonths p <=? 0) = false)
      by (destruct (termMonths p <=? 0) eqn:E; [|reflexivity];
          exfalso; apply Hr; right; left; exact E).
    assert (E3 : (downPayment p <? 0) = false)
      by (destruct (downPayment p <? 0) eqn:E; [|reflexivity];
          exfalso; apply Hr; do 2 right; left; exact E).
    rewrite (calculateLease_checked p E1 E2 E3).
    rewrite <- js_or_lease_residual.
    destruct (netFinanced p <=? _).
    + cbn. intuition congruence.
    + unfold calculateSubscription. cbv zeta. rewrite E1, E2. cbn. tauto.
  - cbn. tauto.
Qed.

End DoubleFacts.
